(** * Arm NN: backend optimisation, memory import and timeline activation

    A shallow embedding of

    - [GpuFsaBackend::OptimizeSubgraphView] and the flag-taking overloads of
      [CreateWorkloadFactory] / [RegisterTensorHandleFactories]
      (src/backends/gpuFsa/GpuFsaBackend.cpp),
    - [ClImportTensorHandle] / [ClImportSubTensorHandle]
      (src/backends/cl/ClImportTensorHandle.hpp),
    - [ActivateTimelineReportingCommandHandler::operator()]
      (src/profiling/ActivateTimelineReportingCommandHandler.cpp),

    followed by the properties established about them. *)

From stdpp Require Import base option list gmap sorting numbers strings.

Local Open Scope N_scope.

(* ===================================================================== *)
(** * Part I: the embedding                                               *)
(* ===================================================================== *)

(** ** Vocabulary shared by the three components *)

Module Armnn.

(** The exception classes the embedded code throws.  [ArmnnException] is
    the base class [armnn::Exception]; the others are distinct classes
    ([RuntimeException], [MemoryImportException], ... derive from the
    base class, [OutOfRange] is [std::out_of_range] as thrown by
    [std::vector::at]).  [NullPointer] and [BadDowncast] stand for the
    two ways the code can leave defined behaviour: dereferencing the
    null result of [GetConnectedOutputSlot] and a failed
    [PolymorphicDowncast]. *)
Inductive Exception : Type :=
| ArmnnException
| RuntimeException
| MemoryImportException
| UnimplementedException
| BackendCapabilityException
| OutOfRange
| NullPointer
| BadDowncast.

Global Instance Exception_eq_dec : EqDecision Exception.
Proof. solve_decision. Defined.

(** A call either returns a value or throws. *)
Inductive Result (A : Type) : Type :=
| Ok (a : A)
| Throw (e : Exception).
Global Arguments Ok {A} a.
Global Arguments Throw {A} e.

Global Instance Result_ret : MRet Result := fun A a => Ok a.
Global Instance Result_bind : MBind Result := fun A B f r =>
  match r with
  | Ok a => f a
  | Throw e => Throw e
  end.

(** A loop whose body may throw: the first exception ends the loop. *)
Fixpoint foldM {S A : Type} (body : S -> A -> Result S) (s : S) (l : list A)
  : Result S :=
  match l with
  | [] => Ok s
  | a :: l' =>
      match body s a with
      | Ok s' => foldM body s' l'
      | Throw e => Throw e
      end
  end.

(** Modelled from the spec: the memory-source enumeration
    ([armnn::MemorySource], declared in include/armnn/Types.hpp, which is
    not among the sources).  The spec names the "undefined/unspecified"
    and the "host-malloc'd buffer" tags of a small closed set used as
    the import-flags vocabulary; the remaining tags and the bit each tag
    occupies follow the declaration. *)
Inductive MemorySource : Type :=
| Undefined
| Malloc
| DmaBuf
| DmaBufProtected
| Gralloc.

Global Instance MemorySource_eq_dec : EqDecision MemorySource.
Proof. solve_decision. Defined.

(** [MemorySourceFlags] is [unsigned int]; flags are kept as [N]. *)
Abbreviation MemorySourceFlags := N (only parsing).

(** [static_cast<MemorySourceFlags>(source)]. *)
Definition MemorySource_to_flags (source : MemorySource) : MemorySourceFlags :=
  match source with
  | Undefined => 0
  | Malloc => 1
  | DmaBuf => 2
  | DmaBufProtected => 4
  | Gralloc => 8
  end.

End Armnn.

Import Armnn.

(** ** The GpuFsa backend (GpuFsaBackend.cpp) *)

Module GpuFsa.

(** *** Graph data model *)

(** [LayerGuid]: an opaque 64-bit identifier. *)
Abbreviation LayerGuid := N (only parsing).

(** [armnn::DataType], the element type recorded in a [TensorInfo]. *)
Inductive DataType : Type :=
| Float16 | Float32 | QAsymmU8 | Signed32 | Boolean
| QSymmS16 | QSymmS8 | QAsymmS8 | BFloat16 | Signed64.

(** [TensorInfo]: shape, element type and quantization parameters.  The
    quantization scales are floats in the source; they are only ever
    copied, and are kept as their IEEE-754 binary32 bit patterns. *)
Record TensorInfo : Type := {
  m_Shape : list N;
  m_DataType : DataType;
  m_Scales : list N;
  m_Offset : Z;
  m_IsConstant : bool
}.

(** [TensorInfo()]: the value an output slot holds until [SetTensorInfo]. *)
Definition TensorInfo_default : TensorInfo :=
  {| m_Shape := []; m_DataType := Float32; m_Scales := [];
     m_Offset := 0%Z; m_IsConstant := false |}.

(** [armnn::LayerType]. *)
Inductive LayerType : Type :=
| Activation | Addition | ArgMinMax | BatchNormalization | BatchToSpaceNd
| Comparison | Concat | Constant | ConvertFp16ToFp32 | ConvertFp32ToFp16
| Convolution2d | Debug | DepthToSpace | DepthwiseConvolution2d
| Dequantize | DetectionPostProcess | Division | ElementwiseUnary
| FakeQuantization | Fill | Floor | FullyConnected | Gather | Input
| InstanceNormalization | L2Normalization | LogicalBinary | LogSoftmax
| Lstm | QLstm | Map | Maximum | Mean | MemCopy | MemImport | Merge
| Minimum | Multiplication | Normalization | Output | Pad | Permute
| Pooling2d | PreCompiled | Prelu | Quantize | QuantizedLstm | Reshape
| Rank | Resize | Reduce | Slice | Softmax | SpaceToBatchNd | SpaceToDepth
| Splitter | Stack | StandIn | StridedSlice | Subtraction | Switch
| Transpose | TransposeConvolution2d | Unmap | Cast | Shape
| UnidirectionalSequenceLstm | ChannelShuffle | Convolution3d | Pooling3d
| GatherNd | BatchMatMul | ElementwiseBinary.

Global Instance LayerType_eq_dec : EqDecision LayerType.
Proof. solve_decision. Defined.

Inductive DataLayout : Type := NCHW | NHWC.

Record Convolution2dDescriptor : Type := {
  m_PadLeft : N; m_PadRight : N; m_PadTop : N; m_PadBottom : N;
  m_StrideX : N; m_StrideY : N;
  m_DilationX : N; m_DilationY : N;
  m_BiasEnabled : bool;
  m_DataLayout : DataLayout
}.

Record PreCompiledDescriptor : Type := {
  m_NumInputSlots : nat;
  m_NumOutputSlots : nat
}.

(** The parameters of a layer: a variant keyed by the layer type.
    [PolymorphicDowncast<const Convolution2dDescriptor*>] succeeds on the
    first alternative only. *)
Inductive BaseDescriptor : Type :=
| Convolution2dParameters (desc : Convolution2dDescriptor)
| PreCompiledParameters (desc : PreCompiledDescriptor)
| OtherParameters.

(** An output slot with the [TensorInfo] attached to it and whether it
    was ever set. *)
Record OutputSlot : Type := {
  GetTensorInfo : TensorInfo;
  IsTensorInfoSet : bool
}.

(** An input slot: the output slot it is connected to, [None] when it is
    dangling ([GetConnectedOutputSlot] returns [nullptr]). *)
Record InputSlot : Type := {
  GetConnectedOutputSlot : option OutputSlot
}.

Record Layer : Type := {
  GetGuid : LayerGuid;
  GetType : LayerType;
  GetNameStr : string;
  m_InputSlots : list InputSlot;
  m_OutputSlots : list OutputSlot;
  GetParameters : BaseDescriptor
}.

Definition GetNumInputSlots (l : Layer) : nat := length (m_InputSlots l).
Definition GetNumOutputSlots (l : Layer) : nat := length (m_OutputSlots l).

(** [Layer::GetInputSlot(i)] and [Layer::GetOutputSlot(i)] index with
    [std::vector::at]. *)
Definition GetInputSlot (l : Layer) (i : nat) : Result InputSlot :=
  match m_InputSlots l !! i with
  | Some s => Ok s
  | None => Throw OutOfRange
  end.

Definition GetOutputSlot (l : Layer) (i : nat) : Result OutputSlot :=
  match m_OutputSlots l !! i with
  | Some s => Ok s
  | None => Throw OutOfRange
  end.

(** [slot->GetTensorInfo()] through the pointer [GetConnectedOutputSlot]
    returned. *)
Definition ConnectedTensorInfo (s : InputSlot) : Result TensorInfo :=
  match GetConnectedOutputSlot s with
  | Some o => Ok (GetTensorInfo o)
  | None => Throw NullPointer
  end.

(** [layer.GetOutputSlot(i).SetTensorInfo(info)], once slot [i] is known
    to exist. *)
Definition SetTensorInfo (l : Layer) (i : nat) (info : TensorInfo) : Layer :=
  {| GetGuid := GetGuid l; GetType := GetType l; GetNameStr := GetNameStr l;
     m_InputSlots := m_InputSlots l;
     m_OutputSlots :=
       <[ i := {| GetTensorInfo := info; IsTensorInfoSet := true |} ]>
         (m_OutputSlots l);
     GetParameters := GetParameters l |}.

(** A slot of a view is a pointer to a slot of a layer: the owning layer's
    guid and the slot's index. *)
Definition SlotRef : Type := LayerGuid * nat.

Record SubgraphView : Type := {
  GetIInputSlots : list SlotRef;
  GetIOutputSlots : list SlotRef;
  GetIConnectableLayers : list Layer
}.

Definition SubgraphView_GetNumOutputSlots (v : SubgraphView) : nat :=
  length (GetIOutputSlots v).

(** [CreateInputsFrom], [CreateOutputsFrom] on one layer: pointers to
    every slot of the layer, in slot order. *)
Definition CreateInputsFrom (layer : Layer) : list SlotRef :=
  (fun i => (GetGuid layer, i)) <$> seq 0 (GetNumInputSlots layer).

Definition CreateOutputsFrom (layer : Layer) : list SlotRef :=
  (fun i => (GetGuid layer, i)) <$> seq 0 (GetNumOutputSlots layer).

Definition CreateSubgraphViewFrom (inputs outputs : list SlotRef)
    (layers : list Layer) : SubgraphView :=
  {| GetIInputSlots := inputs; GetIOutputSlots := outputs;
     GetIConnectableLayers := layers |}.

(** The [SubgraphView] constructor taking one layer: the view of that
    layer with all of its slots. *)
Definition SubgraphView_of_layer (layer : Layer) : SubgraphView :=
  {| GetIInputSlots := CreateInputsFrom layer;
     GetIOutputSlots := CreateOutputsFrom layer;
     GetIConnectableLayers := [layer] |}.

Record SubstitutionPair : Type := {
  m_SubstitutableSubgraph : SubgraphView;
  m_ReplacementSubgraph : SubgraphView
}.

(** [OptimizationViews]: the three partitions, and the layers of the
    network it owns (the pre-compiled layers are created there). *)
Record OptimizationViews : Type := {
  GetSubstitutions : list SubstitutionPair;
  GetFailedSubgraphs : list SubgraphView;
  GetUntouchedSubgraphs : list SubgraphView;
  GetINetwork : list Layer
}.

Definition OptimizationViews_new : OptimizationViews :=
  {| GetSubstitutions := []; GetFailedSubgraphs := [];
     GetUntouchedSubgraphs := []; GetINetwork := [] |}.

Definition AddSubstitution (p : SubstitutionPair) (ov : OptimizationViews)
  : OptimizationViews :=
  {| GetSubstitutions := GetSubstitutions ov ++ [p];
     GetFailedSubgraphs := GetFailedSubgraphs ov;
     GetUntouchedSubgraphs := GetUntouchedSubgraphs ov;
     GetINetwork := GetINetwork ov |}.

Definition AddUntouchedSubgraph (v : SubgraphView) (ov : OptimizationViews)
  : OptimizationViews :=
  {| GetSubstitutions := GetSubstitutions ov;
     GetFailedSubgraphs := GetFailedSubgraphs ov;
     GetUntouchedSubgraphs := GetUntouchedSubgraphs ov ++ [v];
     GetINetwork := GetINetwork ov |}.

(** The layers of each partition. *)
Definition substituted_layers (ov : OptimizationViews) : list Layer :=
  mjoin ((fun p => GetIConnectableLayers (m_SubstitutableSubgraph p))
           <$> GetSubstitutions ov).
Definition untouched_layers (ov : OptimizationViews) : list Layer :=
  mjoin (GetIConnectableLayers <$> GetUntouchedSubgraphs ov).
Definition failed_layers (ov : OptimizationViews) : list Layer :=
  mjoin (GetIConnectableLayers <$> GetFailedSubgraphs ov).

(** The three partitions together. *)
Definition partition_layers (ov : OptimizationViews) : list Layer :=
  substituted_layers ov ++ untouched_layers ov ++ failed_layers ov.

(** A layer the backend's [switch] has a [case] for. *)
Definition is_convolution2d (l : Layer) : Prop := GetType l = Convolution2d.

Global Instance is_convolution2d_dec l : Decision (is_convolution2d l).
Proof. unfold is_convolution2d. apply _. Defined.

(** The data model's identity invariant on a view: its layers carry
    pairwise distinct guids (every layer draws a unique guid at
    construction, and a view lists no layer twice). *)
Definition unique_guids (v : SubgraphView) : Prop :=
  NoDup (GetGuid <$> GetIConnectableLayers v).

(** *** [OptimizeSubgraphView] *)

(** [std::map<LayerGuid, Layer*>]: [insert] keeps the entry already
    stored under the key, [erase] removes the key, iteration is in
    ascending key order. *)
Definition std_map_insert (k : LayerGuid) (v : Layer) (m : gmap N Layer)
  : gmap N Layer :=
  match m !! k with
  | Some _ => m
  | None => <[ k := v ]> m
  end.

Definition std_map_erase (k : LayerGuid) (m : gmap N Layer) : gmap N Layer :=
  delete k m.

Definition key_le (p q : LayerGuid * Layer) : Prop := p.1 <= q.1.

Global Instance key_le_dec p q : Decision (key_le p q).
Proof. unfold key_le. apply _. Defined.

Definition std_map_iterate (m : gmap N Layer) : list (LayerGuid * Layer) :=
  merge_sort key_le (map_to_list m).

(** Modelled from the spec: [ReportUntouchedLayers] (declared in
    backendsCommon/SubgraphUtils.hpp, which is not among the sources).
    "Every remaining untouched node must be explicitly reported as an
    untouched subgraph": each entry of the accumulator becomes an
    untouched view of that one layer with the layer's own slots. *)
Definition ReportUntouchedLayers (ov : OptimizationViews)
    (untouched : gmap N Layer) : OptimizationViews :=
  foldl (fun acc pair => AddUntouchedSubgraph (SubgraphView_of_layer pair.2) acc)
        ov (std_map_iterate untouched).

(** [INetwork::AddPrecompiledLayer]: a fresh layer of type [PreCompiled]
    with the descriptor's numbers of slots, no input connected and no
    output [TensorInfo] set.  [guid] is the next value of the process-wide
    guid counter the [Layer] constructor draws from.  The compiled blob
    (the released workload sketch) and the backend hint are opaque to
    everything that follows and are not represented. *)
Definition AddPrecompiledLayer (desc : PreCompiledDescriptor) (name : string)
    (guid : LayerGuid) : Layer :=
  {| GetGuid := guid;
     GetType := PreCompiled;
     GetNameStr := name;
     m_InputSlots :=
       replicate (m_NumInputSlots desc) {| GetConnectedOutputSlot := None |};
     m_OutputSlots :=
       replicate (m_NumOutputSlots desc)
         {| GetTensorInfo := TensorInfo_default; IsTensorInfoSet := false |};
     GetParameters := PreCompiledParameters desc |}.

(** [PolymorphicDowncast<const Convolution2dDescriptor*>(&base.GetParameters())]. *)
Definition DowncastConvolution2d (p : BaseDescriptor)
  : Result Convolution2dDescriptor :=
  match p with
  | Convolution2dParameters desc => Ok desc
  | _ => Throw BadDowncast
  end.

(** The state the second loop threads: the views built so far, the
    [untouched] accumulator and the guid counter. *)
Record LoopState : Type := {
  optimizationViews : OptimizationViews;
  untouched : gmap N Layer;
  nextGuid : LayerGuid
}.

Section Backend.

(** [GpuFsaConvolution2dCreateOp] (layerValidators/, not among the
    sources): validates the operator against a workload sketch; it
    either returns or throws. *)
Variable GpuFsaConvolution2dCreateOp :
  TensorInfo -> Convolution2dDescriptor -> TensorInfo -> option TensorInfo
  -> Result unit.

(** First loop: every layer of the view, last to first, is inserted
    into [untouched] under its guid. *)
Definition collect_untouched (subgraph : SubgraphView) : gmap N Layer :=
  foldl (fun m base => std_map_insert (GetGuid base) base m)
        ∅ (reverse (GetIConnectableLayers subgraph)).

(** [case LayerType::Convolution2d]: read the tensor infos of the
    connected producers and ask the validator. *)
Definition validate_convolution2d (base : Layer) : Result unit :=
  in0 ← GetInputSlot base 0;
  input ← ConnectedTensorInfo in0;
  in1 ← GetInputSlot base 1;
  weights ← ConnectedTensorInfo in1;
  desc ← DowncastConvolution2d (GetParameters base);
  if m_BiasEnabled desc then
    in2 ← GetInputSlot base 2;
    bias ← ConnectedTensorInfo in2;
    GpuFsaConvolution2dCreateOp input desc weights (Some bias)
  else
    GpuFsaConvolution2dCreateOp input desc weights None.

(** "Copy the output tensor infos from sub-graph":
    [for (i = 0; i < subgraph.GetNumOutputSlots(); i++)
       preCompiledLayer->GetOutputSlot(i).SetTensorInfo(
         base.GetOutputSlot(i).GetTensorInfo());]
    with [count] iterations left and [i] the loop variable. *)
Fixpoint copy_output_infos (count i : nat) (base preCompiledLayer : Layer)
  : Result Layer :=
  match count with
  | O => Ok preCompiledLayer
  | S count' =>
      _ ← GetOutputSlot preCompiledLayer i;
      src ← GetOutputSlot base i;
      copy_output_infos count' (S i) base
        (SetTensorInfo preCompiledLayer i (GetTensorInfo src))
  end.

(** The part of the loop body after the [switch]: build the
    pre-compiled layer, record the substitution, erase the layer from
    [untouched]. *)
Definition substitute (subgraph : SubgraphView) (st : LoopState)
    (base : Layer) : Result LoopState :=
  let fresh :=
    AddPrecompiledLayer
      {| m_NumInputSlots := GetNumInputSlots base;
         m_NumOutputSlots := GetNumOutputSlots base |}
      "GpuFsa_Pre_Compiled_Layer" (nextGuid st) in
  preCompiledLayer ←
    copy_output_infos (SubgraphView_GetNumOutputSlots subgraph) 0 base fresh;
  let substituteSubgraph :=
    CreateSubgraphViewFrom (CreateInputsFrom base) (CreateOutputsFrom base)
                           [base] in
  let ov := optimizationViews st in
  let ov :=
    {| GetSubstitutions := GetSubstitutions ov;
       GetFailedSubgraphs := GetFailedSubgraphs ov;
       GetUntouchedSubgraphs := GetUntouchedSubgraphs ov;
       GetINetwork := GetINetwork ov ++ [preCompiledLayer] |} in
  Ok {| optimizationViews :=
          AddSubstitution
            {| m_SubstitutableSubgraph := substituteSubgraph;
               m_ReplacementSubgraph := SubgraphView_of_layer preCompiledLayer |}
            ov;
        untouched := std_map_erase (GetGuid base) (untouched st);
        nextGuid := N.succ (nextGuid st) |}.

(** One iteration of the second loop. *)
Definition visit (subgraph : SubgraphView) (st : LoopState) (base : Layer)
  : Result LoopState :=
  match GetType base with
  | Convolution2d =>
      _ ← validate_convolution2d base;
      substitute subgraph st base
  | _ =>
      (* unsupported layer for GpuFsa backend *)
      Ok st
  end.

(** [GpuFsaBackend::OptimizeSubgraphView(subgraph, modelOptions)], run
    with the guid counter at [guid]; the result carries the counter's
    final value. *)
Definition OptimizeSubgraphView (subgraph : SubgraphView) (guid : LayerGuid)
  : Result (OptimizationViews * LayerGuid) :=
  let init :=
    {| optimizationViews := OptimizationViews_new;
       untouched := collect_untouched subgraph;
       nextGuid := guid |} in
  st ← foldM (visit subgraph) init (reverse (GetIConnectableLayers subgraph));
  let ov := optimizationViews st in
  match GetSubstitutions ov with
  | [] => Ok (AddUntouchedSubgraph subgraph ov, nextGuid st)
  | _ :: _ => Ok (ReportUntouchedLayers ov (untouched st), nextGuid st)
  end.

End Backend.

(** *** Vocabulary for the properties of [OptimizeSubgraphView] *)

(** What the loop body records for [base]: the original region is the
    view of [base] alone; the replacement is the view of one
    [PreCompiled] layer with as many input and output slots as [base],
    whose output slots below the input view's number of output slots
    carry the [TensorInfo] of the same slot of [base]. *)
Definition substitution_of (subgraph : SubgraphView) (base : Layer)
    (p : SubstitutionPair) : Prop :=
  m_SubstitutableSubgraph p = SubgraphView_of_layer base /\
  exists pre,
    m_ReplacementSubgraph p = SubgraphView_of_layer pre /\
    GetType pre = PreCompiled /\
    GetNumInputSlots pre = GetNumInputSlots base /\
    GetNumOutputSlots pre = GetNumOutputSlots base /\
    forall j, (j < SubgraphView_GetNumOutputSlots subgraph)%nat ->
      exists src dst,
        m_OutputSlots base !! j = Some src /\
        m_OutputSlots pre !! j = Some dst /\
        GetTensorInfo dst = GetTensorInfo src.

(** The accumulator after the second loop ran over [R] without throwing:
    every [Convolution2d] layer of [R] was erased. *)
Definition erase_convolutions (m : gmap N Layer) (R : list Layer)
  : gmap N Layer :=
  foldl (fun m c => if decide (is_convolution2d c)
                    then std_map_erase (GetGuid c) m else m) m R.

(** Both loops over the same visiting order [R]. *)
Definition remaining (R : list Layer) : gmap N Layer :=
  erase_convolutions
    (foldl (fun m base => std_map_insert (GetGuid base) base m) ∅ R) R.

(** *** The overloads taking memory-source flags *)

(** The allocator a memory manager is built around: the backend's custom
    allocator, or a fresh [arm_compute::CLBufferAllocator]. *)
Inductive Allocator : Type :=
| CustomAllocator (id : N)
| CLBufferAllocator.

Record GpuFsaMemoryManager : Type := { m_Allocator : Allocator }.

(** [GpuFsaTensorHandleFactory(memoryManager)]: the constructor takes the
    memory manager and nothing else. *)
Record GpuFsaTensorHandleFactory : Type := {
  m_MemoryManager : GpuFsaMemoryManager
}.

Record GpuFsaWorkloadFactory : Type := {
  workload_MemoryManager : GpuFsaMemoryManager
}.

Record GpuFsaBackend : Type := {
  m_UsingCustomAllocator : bool;
  m_CustomAllocator : N
}.

(** The two by-value flag parameters, as local variables of a call. *)
Record FlagLocals : Type := {
  inputFlags : MemorySourceFlags;
  outputFlags : MemorySourceFlags
}.

(** "To allow force import if inputFlags/outputFlags are Undefined, set
    it as Malloc": the two [if] statements that open both overloads. *)
Definition normalize_flags (fl : FlagLocals) : FlagLocals :=
  let inputFlags :=
    if inputFlags fl =? MemorySource_to_flags Undefined
    then MemorySource_to_flags Malloc else inputFlags fl in
  let outputFlags :=
    if outputFlags fl =? MemorySource_to_flags Undefined
    then MemorySource_to_flags Malloc else outputFlags fl in
  {| inputFlags := inputFlags; outputFlags := outputFlags |}.

Definition make_memory_manager (backend : GpuFsaBackend) : GpuFsaMemoryManager :=
  if m_UsingCustomAllocator backend
  then {| m_Allocator := CustomAllocator (m_CustomAllocator backend) |}
  else {| m_Allocator := CLBufferAllocator |}.

Section Registry.

(** [TensorHandleFactoryRegistry] with its two registration calls
    (not among the sources). *)
Variable TensorHandleFactoryRegistry : Type.
Variable RegisterMemoryManager :
  GpuFsaMemoryManager -> TensorHandleFactoryRegistry -> TensorHandleFactoryRegistry.
Variable RegisterFactory :
  GpuFsaTensorHandleFactory -> TensorHandleFactoryRegistry -> TensorHandleFactoryRegistry.

(** [CreateWorkloadFactory(registry)]. *)
Definition CreateWorkloadFactory (backend : GpuFsaBackend)
    (registry : TensorHandleFactoryRegistry)
  : TensorHandleFactoryRegistry * GpuFsaWorkloadFactory :=
  let memoryManager := make_memory_manager backend in
  let factory := {| m_MemoryManager := memoryManager |} in
  let registry := RegisterMemoryManager memoryManager registry in
  let registry := RegisterFactory factory registry in
  (registry, {| workload_MemoryManager := memoryManager |}).

(** [CreateWorkloadFactory(registry, modelOptions, inputFlags,
    outputFlags)].  The last component is the value of the two flag
    variables when the call returns. *)
Definition CreateWorkloadFactory_flags (backend : GpuFsaBackend)
    (registry : TensorHandleFactoryRegistry)
    (inputFlags outputFlags : MemorySourceFlags)
  : TensorHandleFactoryRegistry * GpuFsaWorkloadFactory * FlagLocals :=
  let locals :=
    normalize_flags {| inputFlags := inputFlags; outputFlags := outputFlags |} in
  let memoryManager := make_memory_manager backend in
  let factory := {| m_MemoryManager := memoryManager |} in
  let registry := RegisterMemoryManager memoryManager registry in
  let registry := RegisterFactory factory registry in
  (registry, {| workload_MemoryManager := memoryManager |}, locals).

(** [RegisterTensorHandleFactories(registry)]. *)
Definition RegisterTensorHandleFactories (backend : GpuFsaBackend)
    (registry : TensorHandleFactoryRegistry) : TensorHandleFactoryRegistry :=
  let memoryManager := make_memory_manager backend in
  let factory := {| m_MemoryManager := memoryManager |} in
  let registry := RegisterMemoryManager memoryManager registry in
  RegisterFactory factory registry.

(** [RegisterTensorHandleFactories(registry, inputFlags, outputFlags)],
    with the final value of the two flag variables. *)
Definition RegisterTensorHandleFactories_flags (backend : GpuFsaBackend)
    (registry : TensorHandleFactoryRegistry)
    (inputFlags outputFlags : MemorySourceFlags)
  : TensorHandleFactoryRegistry * FlagLocals :=
  let locals :=
    normalize_flags {| inputFlags := inputFlags; outputFlags := outputFlags |} in
  let memoryManager := make_memory_manager backend in
  let factory := {| m_MemoryManager := memoryManager |} in
  let registry := RegisterMemoryManager memoryManager registry in
  (RegisterFactory factory registry, locals).

End Registry.

Global Arguments CreateWorkloadFactory {TensorHandleFactoryRegistry}.
Global Arguments CreateWorkloadFactory_flags {TensorHandleFactoryRegistry}.
Global Arguments RegisterTensorHandleFactories {TensorHandleFactoryRegistry}.
Global Arguments RegisterTensorHandleFactories_flags {TensorHandleFactoryRegistry}.

End GpuFsa.

(** ** The OpenCL import tensor handles (ClImportTensorHandle.hpp) *)

Module ClImport.

(** [arm_compute::DataType]. *)
Inductive DataType : Type :=
| UNKNOWN | U8 | S8 | QSYMM8 | QASYMM8 | QASYMM8_SIGNED | QSYMM8_PER_CHANNEL
| U16 | S16 | QSYMM16 | QASYMM16 | U32 | S32 | U64 | S64
| BFLOAT16 | F16 | F32 | F64 | SIZET.

Global Instance DataType_eq_dec : EqDecision DataType.
Proof. solve_decision. Defined.

(** The C++ element types the copy paths cast the host pointer to. *)
Inductive HostType : Type :=
| float | uint8_t | int8_t | Half | int16_t | int32_t.

Global Instance HostType_eq_dec : EqDecision HostType.
Proof. solve_decision. Defined.

(** [sizeof(T)] in bytes. *)
Definition sizeof (T : HostType) : N :=
  match T with
  | float => 4
  | uint8_t => 1
  | int8_t => 1
  | Half => 2
  | int16_t => 2
  | int32_t => 4
  end.

(** The tensor a handle wraps: its info (element type, size in bytes,
    resizability), the device bytes, and the [cl_mem] buffer imported
    into its allocator, if any. *)
Record CLTensor : Type := {
  data_type : DataType;
  total_size : N;
  is_resizable : bool;
  buffer : list N;
  imported_memory : option N
}.

Record ClImportTensorHandle : Type := {
  m_Tensor : CLTensor;
  m_ImportFlags : MemorySourceFlags
}.

Record ClImportSubTensorHandle : Type := {
  sub_Tensor : CLTensor;
  parentHandle : option ClImportTensorHandle
}.

Definition GetDataType (h : ClImportTensorHandle) : DataType :=
  data_type (m_Tensor h).

Definition Sub_GetDataType (h : ClImportSubTensorHandle) : DataType :=
  data_type (sub_Tensor h).

Definition CL_SUCCESS : Z := 0%Z.

(** The pointer cast each [case] of a copy [switch] makes; [None] is the
    [default:] branch. *)

(** [ClImportTensorHandle::CopyOutTo]. *)
Definition CopyOutTo_cast (dt : DataType) : option HostType :=
  match dt with
  | F32 => Some float
  | U8 | QASYMM8 => Some uint8_t
  | QSYMM8_PER_CHANNEL | QASYMM8_SIGNED => Some int8_t
  | F16 => Some Half
  | S16 | QSYMM16 => Some int16_t
  | S32 => Some int32_t
  | _ => None
  end.

(** [ClImportTensorHandle::CopyInFrom]. *)
Definition CopyInFrom_cast (dt : DataType) : option HostType :=
  match dt with
  | F32 => Some float
  | U8 | QASYMM8 => Some uint8_t
  | F16 => Some Half
  | S16 | QSYMM8_PER_CHANNEL | QASYMM8_SIGNED => Some int8_t
  | QSYMM16 => Some int16_t
  | S32 => Some int32_t
  | _ => None
  end.

(** [ClImportSubTensorHandle::CopyOutTo]. *)
Definition Sub_CopyOutTo_cast (dt : DataType) : option HostType :=
  match dt with
  | F32 => Some float
  | U8 | QASYMM8 => Some uint8_t
  | F16 => Some Half
  | QSYMM8_PER_CHANNEL | QASYMM8_SIGNED => Some int8_t
  | S16 | QSYMM16 => Some int16_t
  | S32 => Some int32_t
  | _ => None
  end.

(** [ClImportSubTensorHandle::CopyInFrom]. *)
Definition Sub_CopyInFrom_cast (dt : DataType) : option HostType :=
  match dt with
  | F32 => Some float
  | U8 | QASYMM8 => Some uint8_t
  | F16 => Some Half
  | QSYMM8_PER_CHANNEL | QASYMM8_SIGNED => Some int8_t
  | S16 | QSYMM16 => Some int16_t
  | S32 => Some int32_t
  | _ => None
  end.

(** The element types the specification gives the copy paths, in its own
    words: "32-bit float, 8-bit unsigned (optionally quantized), 8-bit
    signed (optionally per-channel quantized), 16-bit signed (optionally
    quantized), 32-bit signed integer, 16-bit float".  [spec_element] is
    the element an [arm_compute::DataType] stores when it is one of
    those six, quantized or not. *)
Definition spec_element (dt : DataType) : option HostType :=
  match dt with
  | F32 => Some float
  | U8 | QASYMM8 => Some uint8_t
  | S8 | QSYMM8 | QASYMM8_SIGNED | QSYMM8_PER_CHANNEL => Some int8_t
  | S16 | QSYMM16 => Some int16_t
  | S32 => Some int32_t
  | F16 => Some Half
  | UNKNOWN | U16 | QASYMM16 | U32 | U64 | S64 | BFLOAT16 | F64 | SIZET => None
  end.

(** The element types every copy [switch] of the file has a [case] for. *)
Definition copy_case_labels : list DataType :=
  [F32; U8; QASYMM8; QSYMM8_PER_CHANNEL; QASYMM8_SIGNED; F16; S16; QSYMM16; S32].

Section Device.

(** Host memory, addressed through the [void*] the calls receive. *)
Variable HostMemory : Type.

(** [clImportMemoryARM(context, CL_MEM_READ_WRITE, properties, memory,
    size, &error)]: the error code and the buffer. *)
Variable clImportMemoryARM : N -> N -> Z * N.

(** [m_Tensor.allocator()->import_memory(buffer)]: whether the status
    is [ErrorCode::OK], and the tensor afterwards. *)
Variable import_memory : CLTensor -> N -> bool * CLTensor.

(** [armcomputetensorutils::CopyArmComputeITensorData<T>], tensor to
    host and host to tensor. *)
Variable CopyTensorToHost : HostType -> CLTensor -> N -> HostMemory -> HostMemory.
Variable CopyHostToTensor : HostType -> N -> HostMemory -> CLTensor -> CLTensor.

(** [ClImportTensorHandle::Import(memory, source)]: what the call
    returns or throws, and the handle afterwards.  The [ARMNN_ASSERT] on
    the success path compiles to nothing in a release build and is left
    out. *)
Definition Import (h : ClImportTensorHandle) (memory : N)
    (source : MemorySource) : Result bool * ClImportTensorHandle :=
  if negb (N.land (m_ImportFlags h) (MemorySource_to_flags source) =? 0) then
    if decide (source = Malloc) then
      let totalBytes := total_size (m_Tensor h) in
      let '(error, buffer) := clImportMemoryARM memory totalBytes in
      if negb (error =? CL_SUCCESS)%Z then
        (* "ClImportTensorHandle::Invalid imported memory:" *)
        (Throw MemoryImportException, h)
      else
        let '(imported, tensor) := import_memory (m_Tensor h) buffer in
        let h' := {| m_Tensor := tensor; m_ImportFlags := m_ImportFlags h |} in
        if negb imported then
          (Throw MemoryImportException, h')
        else
          (Ok imported, h')
    else
      (* "ClImportTensorHandle::Import flag is not supported" *)
      (Throw MemoryImportException, h)
  else
    (* "ClImportTensorHandle::Incorrect import flag" *)
    (Throw MemoryImportException, h).

(** [ClImportTensorHandle::CopyOutTo(memory)]: [Map] and [Unmap] do
    nothing to the handle; the host memory afterwards. *)
Definition CopyOutTo (h : ClImportTensorHandle) (memory : N)
    (host : HostMemory) : Result unit * HostMemory :=
  match CopyOutTo_cast (GetDataType h) with
  | Some T => (Ok tt, CopyTensorToHost T (m_Tensor h) memory host)
  | None => (Throw UnimplementedException, host)
  end.

(** [ClImportTensorHandle::CopyInFrom(memory)]: the handle afterwards. *)
Definition CopyInFrom (h : ClImportTensorHandle) (memory : N)
    (host : HostMemory) : Result unit * ClImportTensorHandle :=
  match CopyInFrom_cast (GetDataType h) with
  | Some T =>
      (Ok tt, {| m_Tensor := CopyHostToTensor T memory host (m_Tensor h);
                 m_ImportFlags := m_ImportFlags h |})
  | None => (Throw UnimplementedException, h)
  end.

(** [ClImportSubTensorHandle::CopyOutTo(memory)]. *)
Definition Sub_CopyOutTo (h : ClImportSubTensorHandle) (memory : N)
    (host : HostMemory) : Result unit * HostMemory :=
  match Sub_CopyOutTo_cast (Sub_GetDataType h) with
  | Some T => (Ok tt, CopyTensorToHost T (sub_Tensor h) memory host)
  | None => (Throw UnimplementedException, host)
  end.

(** [ClImportSubTensorHandle::CopyInFrom(memory)]. *)
Definition Sub_CopyInFrom (h : ClImportSubTensorHandle) (memory : N)
    (host : HostMemory) : Result unit * ClImportSubTensorHandle :=
  match Sub_CopyInFrom_cast (Sub_GetDataType h) with
  | Some T =>
      (Ok tt, {| sub_Tensor := CopyHostToTensor T memory host (sub_Tensor h);
                 parentHandle := parentHandle h |})
  | None => (Throw UnimplementedException, h)
  end.

End Device.

Global Arguments CopyOutTo {HostMemory}.
Global Arguments CopyInFrom {HostMemory}.
Global Arguments Sub_CopyOutTo {HostMemory}.
Global Arguments Sub_CopyInFrom {HostMemory}.

End ClImport.

(** ** Timeline activation (ActivateTimelineReportingCommandHandler.cpp) *)

Module Profiling.

Inductive ProfilingState : Type :=
| Uninitialised
| NotConnected
| WaitingForAck
| Active.

Global Instance ProfilingState_eq_dec : EqDecision ProfilingState.
Proof. solve_decision. Defined.

(** A packet, read through [GetPacketFamily] and [GetPacketId]. *)
Record Packet : Type := {
  GetPacketFamily : N;
  GetPacketId : N
}.

(** The handler's calls to its collaborators, in the order the source
    makes them.  [ReportStructure] stands for lines 54 to 57: the
    profiling service is created and the structure is reported to it. *)
Inductive Action : Type :=
| SendTimelineMessageDirectoryPackage
| SendWellKnownLabelsAndEventClasses
| ReportStructure
| NotifyBackendsForTimelineReporting.

Global Instance Action_eq_dec : EqDecision Action.
Proof. solve_decision. Defined.

(** The handler's members: the state machine's current state, whether
    [m_ReportStructure] holds a value, the shared timeline-reporting
    flag, and the collaborator calls that returned so far. *)
Record Handler : Type := {
  GetCurrentState : ProfilingState;
  m_ReportStructure_has_value : bool;
  m_TimelineReporting : bool;
  performed : list Action
}.

(** What a first activation performs. *)
Definition activation_actions : list Action :=
  [SendTimelineMessageDirectoryPackage;
   SendWellKnownLabelsAndEventClasses;
   ReportStructure;
   NotifyBackendsForTimelineReporting].

(** A collaborator call returned. *)
Definition returned (a : Action) (h : Handler) : Handler :=
  {| GetCurrentState := GetCurrentState h;
     m_ReportStructure_has_value := m_ReportStructure_has_value h;
     m_TimelineReporting := m_TimelineReporting h;
     performed := performed h ++ [a] |}.

(** [m_TimelineReporting = true;] *)
Definition set_TimelineReporting (h : Handler) : Handler :=
  {| GetCurrentState := GetCurrentState h;
     m_ReportStructure_has_value := m_ReportStructure_has_value h;
     m_TimelineReporting := true;
     performed := performed h |}.

(** [ActivateTimelineReportingCommandHandler::operator()(packet)].
    [call a] is what the collaborator call [a] does during this
    invocation: it returns, or it throws and the exception leaves the
    handler at that point, with everything done before it kept.  The flag
    is written between the two sends and the structure report, as in the
    source.  The [default:] branch of the [switch] is not reachable from
    the four enumerators. *)
Definition handle (call : Action -> Result unit) (h : Handler) (packet : Packet)
  : Result unit * Handler :=
  let currentState := GetCurrentState h in
  if negb (m_ReportStructure_has_value h) then
    (Throw ArmnnException, h)
  else
    match currentState with
    | Uninitialised | NotConnected | WaitingForAck =>
        (Throw RuntimeException, h)
    | Active =>
        if negb ((GetPacketFamily packet =? 0) && (GetPacketId packet =? 6)) then
          (Throw ArmnnException, h)
        else if negb (m_TimelineReporting h) then
          match call SendTimelineMessageDirectoryPackage with
          | Throw e => (Throw e, h)
          | Ok _ =>
              let h := returned SendTimelineMessageDirectoryPackage h in
              match call SendWellKnownLabelsAndEventClasses with
              | Throw e => (Throw e, h)
              | Ok _ =>
                  let h := returned SendWellKnownLabelsAndEventClasses h in
                  let h := set_TimelineReporting h in
                  match call ReportStructure with
                  | Throw e => (Throw e, h)
                  | Ok _ =>
                      let h := returned ReportStructure h in
                      match call NotifyBackendsForTimelineReporting with
                      | Throw e => (Throw e, h)
                      | Ok _ =>
                          (Ok tt, returned NotifyBackendsForTimelineReporting h)
                      end
                  end
              end
          end
        else
          (Ok tt, h)
    end.

(** The calls of [actions], in order, that return before the first one
    that throws. *)
Fixpoint completed (call : Action -> Result unit) (actions : list Action)
  : list Action :=
  match actions with
  | [] => []
  | a :: rest =>
      match call a with
      | Ok _ => a :: completed call rest
      | Throw _ => []
      end
  end.

End Profiling.

(** ** Concrete inputs used to exercise the embedding *)

Module Examples.

Import GpuFsa.

Definition tensor_1x2x2x1 : TensorInfo :=
  {| m_Shape := [1; 2; 2; 1]; m_DataType := Float32; m_Scales := [];
     m_Offset := 0%Z; m_IsConstant := false |}.

Definition producer : OutputSlot :=
  {| GetTensorInfo := tensor_1x2x2x1; IsTensorInfoSet := true |}.

Definition connected : InputSlot := {| GetConnectedOutputSlot := Some producer |}.

Definition biased_descriptor : Convolution2dDescriptor :=
  {| m_PadLeft := 0; m_PadRight := 0; m_PadTop := 0; m_PadBottom := 0;
     m_StrideX := 1; m_StrideY := 1; m_DilationX := 1; m_DilationY := 1;
     m_BiasEnabled := true; m_DataLayout := NHWC |}.

(** A [Convolution2d] layer with bias: input, weights and bias connected,
    one output. *)
Definition convolution (guid : N) : Layer :=
  {| GetGuid := guid; GetType := Convolution2d; GetNameStr := "conv";
     m_InputSlots := [connected; connected; connected];
     m_OutputSlots := [producer];
     GetParameters := Convolution2dParameters biased_descriptor |}.

Definition activation (guid : N) : Layer :=
  {| GetGuid := guid; GetType := Activation; GetNameStr := "act";
     m_InputSlots := [connected];
     m_OutputSlots := [producer];
     GetParameters := OtherParameters |}.

(** A validator that accepts every operator. *)
Definition always_valid (input : TensorInfo) (desc : Convolution2dDescriptor)
    (weights : TensorInfo) (bias : option TensorInfo) : Result unit := Ok tt.

(** activation 7 -> convolution 5 -> activation 9 -> activation 3. *)
Definition mixed_view : SubgraphView :=
  {| GetIInputSlots := [(7, 0%nat)];
     GetIOutputSlots := [(3, 0%nat)];
     GetIConnectableLayers :=
       [activation 7; convolution 5; activation 9; activation 3] |}.

(** A view without any [Convolution2d] layer. *)
Definition declined_view : SubgraphView :=
  {| GetIInputSlots := [(7, 0%nat)];
     GetIOutputSlots := [(3, 0%nat)];
     GetIConnectableLayers := [activation 7; activation 3] |}.

(** One convolution whose output does not cross the view's boundary: the
    view lists no output slot. *)
Definition no_output_view : SubgraphView :=
  {| GetIInputSlots := CreateInputsFrom (convolution 1);
     GetIOutputSlots := [];
     GetIConnectableLayers := [convolution 1] |}.

(** One convolution with its own slots as the view's boundary. *)
Definition single_convolution_view : SubgraphView :=
  {| GetIInputSlots := CreateInputsFrom (convolution 1);
     GetIOutputSlots := CreateOutputsFrom (convolution 1);
     GetIConnectableLayers := [convolution 1] |}.

(** Two convolutions, both feeding layers outside the view: the view
    lists two output slots. *)
Definition two_output_view : SubgraphView :=
  {| GetIInputSlots := CreateInputsFrom (convolution 1);
     GetIOutputSlots := [(1, 0%nat); (2, 0%nat)];
     GetIConnectableLayers := [convolution 1; convolution 2] |}.

Definition run (v : SubgraphView) : OptimizationViews * N :=
  match OptimizeSubgraphView always_valid v 100 with
  | Ok r => r
  | Throw _ => (OptimizationViews_new, 0)
  end.

Definition mixed_result : OptimizationViews * N :=
  Eval vm_compute in run mixed_view.

Definition declined_result : OptimizationViews * N :=
  Eval vm_compute in run declined_view.

Definition no_output_result : OptimizationViews * N :=
  Eval vm_compute in run no_output_view.

(** A device on which every import succeeds and a copy moves the whole
    buffer; host memory is the list of bytes behind the pointer. *)
Definition accept_import (memory size : N) : Z * N := (ClImport.CL_SUCCESS, memory).

Definition bind_buffer (t : ClImport.CLTensor) (buffer : N)
  : bool * ClImport.CLTensor :=
  (true,
   {| ClImport.data_type := ClImport.data_type t;
      ClImport.total_size := ClImport.total_size t;
      ClImport.is_resizable := false;
      ClImport.buffer := ClImport.buffer t;
      ClImport.imported_memory := Some buffer |}).

Definition copy_out (T : ClImport.HostType) (t : ClImport.CLTensor)
    (memory : N) (host : list N) : list N := ClImport.buffer t.

Definition copy_in (T : ClImport.HostType) (memory : N) (host : list N)
    (t : ClImport.CLTensor) : ClImport.CLTensor :=
  {| ClImport.data_type := ClImport.data_type t;
     ClImport.total_size := ClImport.total_size t;
     ClImport.is_resizable := ClImport.is_resizable t;
     ClImport.buffer := host;
     ClImport.imported_memory := ClImport.imported_memory t |}.

(** A four-byte tensor of element type [dt]. *)
Definition tensor_of (dt : ClImport.DataType) : ClImport.CLTensor :=
  {| ClImport.data_type := dt; ClImport.total_size := 4;
     ClImport.is_resizable := true; ClImport.buffer := [0; 0; 0; 0];
     ClImport.imported_memory := None |}.

(** A handle that may import host-malloc'd buffers only. *)
Definition malloc_handle (dt : ClImport.DataType) : ClImport.ClImportTensorHandle :=
  {| ClImport.m_Tensor := tensor_of dt;
     ClImport.m_ImportFlags := MemorySource_to_flags Malloc |}.

Definition sub_handle (dt : ClImport.DataType) : ClImport.ClImportSubTensorHandle :=
  {| ClImport.sub_Tensor := tensor_of dt;
     ClImport.parentHandle := Some (malloc_handle dt) |}.

(** Handlers before and after the connection is acknowledged. *)
Definition handler_in (state : Profiling.ProfilingState) (has_structure : bool)
  : Profiling.Handler :=
  {| Profiling.GetCurrentState := state;
     Profiling.m_ReportStructure_has_value := has_structure;
     Profiling.m_TimelineReporting := false;
     Profiling.performed := [] |}.

Definition activate_packet : Profiling.Packet :=
  {| Profiling.GetPacketFamily := 0; Profiling.GetPacketId := 6 |}.

(** Collaborators that all return. *)
Definition all_return (a : Profiling.Action) : Result unit := Ok tt.

(** Collaborators of which the structure report throws. *)
Definition report_throws (a : Profiling.Action) : Result unit :=
  match a with
  | Profiling.ReportStructure => Throw RuntimeException
  | _ => Ok tt
  end.

(** Collaborators of which the second send throws. *)
Definition labels_throw (a : Profiling.Action) : Result unit :=
  match a with
  | Profiling.SendWellKnownLabelsAndEventClasses => Throw RuntimeException
  | _ => Ok tt
  end.

End Examples.

(** ** Test utilities (backendsCommon/test/CommonTestUtils.cpp) *)

Module TestUtils.

Import GpuFsa.

(** [CreateInputsFrom(const std::vector<Layer*>&)]: for each layer in
    turn, for each of its input slots in turn, [push_back] a pointer to the
    slot. *)
Definition CreateInputsFrom (layers : list Layer) : list SlotRef :=
  foldl (fun result layer =>
           foldl (fun result it => result ++ [(GetGuid layer, it)])
                 result (seq 0 (GetNumInputSlots layer)))
        [] layers.

(** [CreateOutputsFrom(const std::vector<Layer*>&)]. *)
Definition CreateOutputsFrom (layers : list Layer) : list SlotRef :=
  foldl (fun result layer =>
           foldl (fun result it => result ++ [(GetGuid layer, it)])
                 result (seq 0 (GetNumOutputSlots layer)))
        [] layers.

(** [CreateSubgraphViewFrom(inputs, outputs, layers)]. *)
Definition CreateSubgraphViewFrom (inputs outputs : list SlotRef)
    (layers : list Layer) : SubgraphView :=
  {| GetIInputSlots := inputs; GetIOutputSlots := outputs;
     GetIConnectableLayers := layers |}.

(** [armnn::DataLayout] with all of its enumerators ([MakeTensorShape] has
    a [default:] branch for the ones it does not name). *)
Inductive DataLayout : Type := NCHW | NHWC | NDHWC | NCDHW.

(** What [MakeTensorShape] does: return a shape, or throw
    [InvalidArgumentException]. *)
Inductive ShapeOutcome : Type :=
| Returns (shape : list N)
| ThrowsInvalidArgumentException.

(** [MakeTensorShape(batches, channels, height, width, layout)]. *)
Definition MakeTensorShape (batches channels height width : N)
    (layout : DataLayout) : ShapeOutcome :=
  match layout with
  | NCHW => Returns [batches; channels; height; width]
  | NHWC => Returns [batches; height; width; channels]
  | _ => ThrowsInvalidArgumentException
  end.

End TestUtils.

(** ** Invocations of the timeline handler over time *)

Module ProfilingRuns.

Import Profiling.

(** The state machine the handler reads is shared with the rest of the
    profiling service, which moves it between invocations. *)
Definition TransitionToState (state : ProfilingState) (h : Handler) : Handler :=
  {| GetCurrentState := state;
     m_ReportStructure_has_value := m_ReportStructure_has_value h;
     m_TimelineReporting := m_TimelineReporting h;
     performed := performed h |}.

(** A run: before each invocation the state machine is wherever the
    service left it, and the collaborators behave as they do at that
    moment; an exception ends that invocation only. *)
Fixpoint invoke_all (h : Handler)
    (calls : list ((Action -> Result unit) * ProfilingState * Packet))
  : Handler :=
  match calls with
  | [] => h
  | (call, state, packet) :: rest =>
      invoke_all (snd (handle call (TransitionToState state h) packet)) rest
  end.

End ProfilingRuns.

(** ** Further concrete inputs *)

Module Scenarios.

Import GpuFsa Examples.

(** A convolution without bias: input and weights connected. *)
Definition plain_descriptor : Convolution2dDescriptor :=
  {| m_PadLeft := 0; m_PadRight := 0; m_PadTop := 0; m_PadBottom := 0;
     m_StrideX := 1; m_StrideY := 1; m_DilationX := 1; m_DilationY := 1;
     m_BiasEnabled := false; m_DataLayout := NHWC |}.

Definition plain_convolution (guid : N) : Layer :=
  {| GetGuid := guid; GetType := Convolution2d; GetNameStr := "conv";
     m_InputSlots := [connected; connected];
     m_OutputSlots := [producer];
     GetParameters := Convolution2dParameters plain_descriptor |}.

(** plain convolution 4 -> activation 8 -> convolution 6, the last one
    feeding the outside. *)
Definition chain_view : SubgraphView :=
  {| GetIInputSlots := CreateInputsFrom (plain_convolution 4);
     GetIOutputSlots := [(6, 0%nat)];
     GetIConnectableLayers := [plain_convolution 4; activation 8; convolution 6] |}.

Definition chain_result : OptimizationViews * N :=
  Eval vm_compute in run chain_view.

(** A handler in [Active] that has not activated yet, and a packet of
    another command. *)
Definition other_packet : Profiling.Packet :=
  {| Profiling.GetPacketFamily := 0; Profiling.GetPacketId := 7 |}.

End Scenarios.

(* ===================================================================== *)
(** * Part II: properties                                                 *)
(* ===================================================================== *)

(** ** Exceptions propagate through sequencing *)

Lemma bind_Ok_inv {A B : Type} (r : Result A) (f : A -> Result B) (b : B) :
  r ≫= f = Ok b -> exists a, r = Ok a /\ f a = Ok b.
Proof.
  destruct r as [a|e]; simpl; intros H; [eauto | discriminate].
Qed.

(** ** The GpuFsa backend *)

Module GpuFsaFacts.

Import GpuFsa.

(** *** The [untouched] accumulator *)

Lemma lookup_std_map_insert_fresh k v (m : gmap N Layer) :
  m !! k = None -> std_map_insert k v m = <[ k := v ]> m.
Proof. unfold std_map_insert. by intros ->. Qed.

Lemma collect_lookup (R : list Layer) :
  NoDup (GetGuid <$> R) ->
  forall (m : gmap N Layer),
    (forall l, l ∈ R -> m !! GetGuid l = None) ->
    forall g l,
      foldl (fun m base => std_map_insert (GetGuid base) base m) m R !! g = Some l
      <-> m !! g = Some l \/ (l ∈ R /\ GetGuid l = g).
Proof.
  induction R as [|a R IH]; intros Hnd m Hfresh g l; simpl.
  - split; [by left|]. intros [H|[H _]]; [done|]. by apply elem_of_nil in H.
  - rewrite fmap_cons in Hnd. apply NoDup_cons in Hnd as [Ha Hnd].
    rewrite lookup_std_map_insert_fresh by (apply Hfresh; left).
    rewrite IH; [|done|].
    + rewrite lookup_insert. case_decide as Hg.
      * subst g. pose proof (Hfresh a (list_elem_of_here _ _)) as Hna.
        rewrite Hna. split.
        -- intros [H|[H1 H2]].
           ++ injection H as <-. right. split; [left|done].
           ++ right. split; [by right|done].
        -- intros [H|[H1 H2]]; [done|].
           apply elem_of_cons in H1 as [->|H1]; [by left|]. right; by split.
      * split.
        -- intros [H|[H1 H2]]; [by left | right; split; [by right | done]].
        -- intros [H|[H1 H2]]; [by left|].
           apply elem_of_cons in H1 as [->|H1]; [done|]. right; by split.
    + intros l' Hl'. rewrite lookup_insert_ne.
      * apply Hfresh. by right.
      * intros Heq. apply Ha. rewrite Heq. by apply list_elem_of_fmap_2.
Qed.

Lemma erase_lookup (R : list Layer) (m : gmap N Layer) g l :
  foldl (fun m c => if decide (is_convolution2d c)
                    then std_map_erase (GetGuid c) m else m) m R !! g = Some l
  <-> m !! g = Some l /\ Forall (fun c => is_convolution2d c -> GetGuid c ≠ g) R.
Proof.
  revert m; induction R as [|a R IH]; intros m; simpl.
  - split; [intros H; split; [done | constructor] | by intros [H _]].
  - rewrite IH, Forall_cons. case_decide as Hc.
    + unfold std_map_erase. rewrite lookup_delete. case_decide as Hg.
      * split; [by intros [H _] | intros (_ & H & _); by destruct (H Hc)].
      * split; [intros [H1 H2]; split; [done | split; [done|done]]
               | intros (H1 & _ & H2); by split].
    + split; [intros [H1 H2]; split; [done | split; [done|done]]
             | intros (H1 & _ & H2); by split].
Qed.

Lemma unique_guids_inj (R : list Layer) (x y : Layer) :
  NoDup (GetGuid <$> R) -> x ∈ R -> y ∈ R -> GetGuid x = GetGuid y -> x = y.
Proof.
  induction R as [|a R IH]; intros Hnd Hx Hy Heq.
  - by apply elem_of_nil in Hx.
  - rewrite fmap_cons in Hnd. apply NoDup_cons in Hnd as [Ha Hnd].
    apply elem_of_cons in Hx as [->|Hx]; apply elem_of_cons in Hy as [->|Hy].
    + done.
    + exfalso. apply Ha. rewrite Heq. by apply list_elem_of_fmap_2.
    + exfalso. apply Ha. rewrite <- Heq. by apply list_elem_of_fmap_2.
    + by apply IH.
Qed.

Lemma remaining_lookup (R : list Layer) g l :
  NoDup (GetGuid <$> R) ->
  remaining R !! g = Some l <-> l ∈ R /\ GetGuid l = g /\ ~ is_convolution2d l.
Proof.
  intros Hnd. unfold remaining, erase_convolutions.
  rewrite erase_lookup, (collect_lookup R Hnd ∅) by (intros; apply lookup_empty).
  rewrite lookup_empty, Forall_forall. split.
  - intros [[H|[Hl Hg]] Hall]; [done|]. repeat split; [done..|].
    intros Hc. by apply (Hall l Hl Hc).
  - intros (Hl & Hg & Hc). split; [right; by split|].
    intros c Hin Hconv Heq. apply Hc.
    by rewrite (unique_guids_inj R l c Hnd Hl Hin) by congruence.
Qed.

Lemma remaining_entries (R : list Layer) :
  NoDup (GetGuid <$> R) ->
  map_to_list (remaining R) ≡ₚ
    (fun l => (GetGuid l, l)) <$> filter (fun l => ~ is_convolution2d l) R.
Proof.
  intros Hnd. apply NoDup_Permutation.
  - apply NoDup_map_to_list.
  - apply (NoDup_fmap_1 fst). rewrite <- list_fmap_compose.
    change (fst ∘ (fun l : Layer => (GetGuid l, l))) with GetGuid.
    apply (sublist_NoDup _ _ Hnd), fmap_sublist, sublist_filter.
  - intros [g l]. rewrite elem_of_map_to_list, remaining_lookup by done.
    rewrite list_elem_of_fmap. split.
    + intros (Hl & Hg & Hc). exists l. split; [by rewrite Hg|].
      by apply list_elem_of_filter.
    + intros (l' & Heq & Hin). injection Heq as -> ->.
      apply list_elem_of_filter in Hin as [Hc Hin]. done.
Qed.

Lemma iterate_values (R : list Layer) :
  NoDup (GetGuid <$> R) ->
  (std_map_iterate (remaining R)).*2 ≡ₚ filter (fun l => ~ is_convolution2d l) R.
Proof.
  intros Hnd. unfold std_map_iterate.
  rewrite merge_sort_Permutation, remaining_entries by done.
  rewrite <- list_fmap_compose. by rewrite list_fmap_id.
Qed.

Lemma ReportUntouchedLayers_spec ov m :
  GetSubstitutions (ReportUntouchedLayers ov m) = GetSubstitutions ov /\
  GetFailedSubgraphs (ReportUntouchedLayers ov m) = GetFailedSubgraphs ov /\
  GetUntouchedSubgraphs (ReportUntouchedLayers ov m) =
    GetUntouchedSubgraphs ov ++ (SubgraphView_of_layer <$> (std_map_iterate m).*2).
Proof.
  unfold ReportUntouchedLayers. generalize (std_map_iterate m) as l.
  intros l; revert ov; induction l as [|p l IH]; intros ov; simpl.
  - by rewrite app_nil_r.
  - destruct (IH (AddUntouchedSubgraph (SubgraphView_of_layer p.2) ov)) as (H1 & H2 & H3).
    rewrite H1, H2, H3. simpl. by rewrite <- app_assoc.
Qed.

(** *** The loop over the layers *)

Section Facts.

Variable CreateOp :
  TensorInfo -> Convolution2dDescriptor -> TensorInfo -> option TensorInfo
  -> Result unit.

Lemma copy_output_infos_shape count i base pre pre' :
  copy_output_infos count i base pre = Ok pre' ->
  GetType pre' = GetType pre /\
  GetNumInputSlots pre' = GetNumInputSlots pre /\
  GetNumOutputSlots pre' = GetNumOutputSlots pre.
Proof.
  revert i pre; induction count as [|count IH]; intros i pre H; simpl in H.
  - by injection H as <-.
  - apply bind_Ok_inv in H as (dst & _ & H).
    apply bind_Ok_inv in H as (src & _ & H).
    apply IH in H as (H1 & H2 & H3).
    rewrite H1, H2, H3. unfold GetNumOutputSlots, GetNumInputSlots; simpl.
    by rewrite length_insert.
Qed.

Lemma copy_output_infos_copied count i base pre pre' :
  copy_output_infos count i base pre = Ok pre' ->
  forall j, (i <= j < i + count)%nat ->
    exists src dst,
      m_OutputSlots base !! j = Some src /\
      m_OutputSlots pre' !! j = Some dst /\
      GetTensorInfo dst = GetTensorInfo src.
Proof.
  assert (Hkeep : forall count i pre pre',
    copy_output_infos count i base pre = Ok pre' ->
    forall j, (j < i)%nat -> m_OutputSlots pre' !! j = m_OutputSlots pre !! j).
  { clear. induction count as [|count IH]; intros i pre pre' H j Hj; simpl in H.
    - by injection H as <-.
    - apply bind_Ok_inv in H as (dst & _ & H).
      apply bind_Ok_inv in H as (src & _ & H).
      rewrite (IH _ _ _ H j) by lia. simpl.
      apply list_lookup_insert_ne. lia. }
  revert i pre; induction count as [|count IH]; intros i pre H j Hj; simpl in H.
  - lia.
  - apply bind_Ok_inv in H as (dst & Hdst & H).
    apply bind_Ok_inv in H as (src & Hsrc & H).
    destruct (decide (j = i)) as [->|Hne].
    + unfold GetOutputSlot in Hsrc, Hdst.
      destruct (m_OutputSlots base !! i) as [s|] eqn:Hs; [|discriminate].
      destruct (m_OutputSlots pre !! i) as [d|] eqn:Hd; [|discriminate].
      injection Hsrc as <-.
      exists s, {| GetTensorInfo := GetTensorInfo s; IsTensorInfoSet := true |}.
      split; [done|]. split; [|done].
      rewrite (Hkeep _ _ _ _ H i) by lia. simpl.
      apply list_lookup_insert_eq. by eapply lookup_lt_Some.
    + apply (IH _ _ H). lia.
Qed.

Lemma visit_other sg st base :
  ~ is_convolution2d base -> visit CreateOp sg st base = Ok st.
Proof.
  unfold is_convolution2d, visit. intros H. by destruct (GetType base).
Qed.

Lemma visit_convolution2d sg st base :
  is_convolution2d base ->
  visit CreateOp sg st base =
    validate_convolution2d CreateOp base ≫= (fun _ => substitute sg st base).
Proof. unfold is_convolution2d, visit. by intros ->. Qed.

Lemma substitute_spec sg st base st' :
  substitute sg st base = Ok st' ->
  (exists p, substitution_of sg base p /\
     GetSubstitutions (optimizationViews st') =
       GetSubstitutions (optimizationViews st) ++ [p]) /\
  GetFailedSubgraphs (optimizationViews st') = GetFailedSubgraphs (optimizationViews st) /\
  GetUntouchedSubgraphs (optimizationViews st') = GetUntouchedSubgraphs (optimizationViews st) /\
  untouched st' = std_map_erase (GetGuid base) (untouched st).
Proof.
  unfold substitute. intros H.
  apply bind_Ok_inv in H as (pre & Hcopy & H). injection H as <-. simpl.
  split; [|done].
  eexists; split; [|reflexivity]. split; [done|]. exists pre; simpl.
  split; [done|].
  pose proof (copy_output_infos_shape _ _ _ _ _ Hcopy) as (H1 & H2 & H3).
  rewrite H1, H2, H3. unfold GetNumInputSlots, GetNumOutputSlots; simpl.
  rewrite !length_replicate. repeat split; try done.
  intros j Hj. apply (copy_output_infos_copied _ _ _ _ _ Hcopy). lia.
Qed.

Lemma visit_loop_spec sg R st st' :
  foldM (visit CreateOp sg) st R = Ok st' ->
  (exists ps,
     GetSubstitutions (optimizationViews st') =
       GetSubstitutions (optimizationViews st) ++ ps /\
     Forall2 (substitution_of sg) (filter is_convolution2d R) ps) /\
  GetFailedSubgraphs (optimizationViews st') = GetFailedSubgraphs (optimizationViews st) /\
  GetUntouchedSubgraphs (optimizationViews st') = GetUntouchedSubgraphs (optimizationViews st) /\
  untouched st' = erase_convolutions (untouched st) R.
Proof.
  revert st; induction R as [|base R IH]; intros st H; simpl in H.
  - injection H as <-. split; [|done]. exists []. rewrite app_nil_r. split; [done|constructor].
  - destruct (visit CreateOp sg st base) as [st1|e] eqn:Hv; [|discriminate].
    apply IH in H as ((ps & Hps & HF) & Hf & Hu & Hm).
    destruct (decide (is_convolution2d base)) as [Hc|Hc].
    + rewrite visit_convolution2d in Hv by done.
      apply bind_Ok_inv in Hv as (_ & _ & Hv).
      apply substitute_spec in Hv as ((p & Hp & Hsub) & Hf1 & Hu1 & Hm1).
      rewrite filter_cons_True by done. simpl.
      unfold erase_convolutions in *. simpl. rewrite decide_True by done.
      rewrite Hf, Hu, Hm, Hf1, Hu1, Hm1. split; [|done].
      exists (p :: ps). rewrite Hps, Hsub, <- app_assoc. split; [done|].
      by constructor.
    + rewrite visit_other in Hv by done. injection Hv as <-.
      rewrite filter_cons_False by done.
      unfold erase_convolutions in *. simpl. rewrite decide_False by done.
      split; [by exists ps|done].
Qed.

Lemma OptimizeSubgraphView_inv sg guid ov guid' :
  OptimizeSubgraphView CreateOp sg guid = Ok (ov, guid') ->
  Forall2 (substitution_of sg)
    (filter is_convolution2d (reverse (GetIConnectableLayers sg)))
    (GetSubstitutions ov) /\
  GetFailedSubgraphs ov = [] /\
  GetUntouchedSubgraphs ov =
    match GetSubstitutions ov with
    | [] => [sg]
    | _ :: _ =>
        SubgraphView_of_layer <$>
          (std_map_iterate (remaining (reverse (GetIConnectableLayers sg)))).*2
    end.
Proof.
  unfold OptimizeSubgraphView. intros H.
  apply bind_Ok_inv in H as (st & Hloop & H).
  apply visit_loop_spec in Hloop as ((ps & Hps & HF) & Hf & Hu & Hm).
  simpl in Hps, Hf, Hu, Hm. rewrite Hps in H.
  destruct ps as [|p0 ps0]; injection H as <- <-.
  - simpl. by rewrite Hps, Hf, Hu.
  - destruct (ReportUntouchedLayers_spec (optimizationViews st) (untouched st))
      as (H1 & H2 & H3).
    by rewrite H1, H2, H3, Hps, Hf, Hu, Hm.
Qed.

Lemma substituted_layers_spec sg R ps :
  Forall2 (substitution_of sg) R ps ->
  mjoin ((fun p => GetIConnectableLayers (m_SubstitutableSubgraph p)) <$> ps) = R.
Proof.
  induction 1 as [|base p R ps [Hp _] _ IH]; simpl; [done|].
  rewrite Hp. simpl. f_equal. exact IH.
Qed.

Lemma untouched_layers_single (ls : list Layer) :
  mjoin (GetIConnectableLayers <$> (SubgraphView_of_layer <$> ls)) = ls.
Proof. induction ls as [|l ls IH]; simpl; [done | f_equal; exact IH]. Qed.

(** The layers of the three partitions, read off the result. *)
Lemma OptimizeSubgraphView_layers sg guid ov guid' :
  OptimizeSubgraphView CreateOp sg guid = Ok (ov, guid') ->
  substituted_layers ov =
    filter is_convolution2d (reverse (GetIConnectableLayers sg)) /\
  failed_layers ov = [] /\
  untouched_layers ov =
    match GetSubstitutions ov with
    | [] => GetIConnectableLayers sg
    | _ :: _ => (std_map_iterate (remaining (reverse (GetIConnectableLayers sg)))).*2
    end.
Proof.
  intros H. apply OptimizeSubgraphView_inv in H as (HF & Hf & Hu).
  unfold substituted_layers, failed_layers, untouched_layers.
  rewrite (substituted_layers_spec _ _ _ HF), Hf, Hu.
  split; [done|]. split; [done|].
  destruct (GetSubstitutions ov); simpl.
  - by rewrite app_nil_r.
  - apply untouched_layers_single.
Qed.

Lemma no_substitution_no_convolution sg guid ov guid' :
  OptimizeSubgraphView CreateOp sg guid = Ok (ov, guid') ->
  GetSubstitutions ov = [] ->
  filter is_convolution2d (reverse (GetIConnectableLayers sg)) = [].
Proof.
  intros H Hs. apply OptimizeSubgraphView_inv in H as (HF & _).
  rewrite Hs in HF. by inversion HF.
Qed.

(** C1.  Partition completeness: on a view whose layers carry pairwise
    distinct guids, whenever [OptimizeSubgraphView] returns, the layers of
    the substituted original regions, of the untouched views and of the
    failed views are together exactly the layers of the input view, each
    of them once: the three lists appended are a permutation of the
    view's layer list and contain no layer twice. *)
Theorem OptimizeSubgraphView_partition sg guid ov guid' :
  unique_guids sg ->
  OptimizeSubgraphView CreateOp sg guid = Ok (ov, guid') ->
  partition_layers ov ≡ₚ GetIConnectableLayers sg /\
  NoDup (partition_layers ov).
Proof.
  intros Hnd H.
  assert (Hperm : partition_layers ov ≡ₚ GetIConnectableLayers sg).
  { pose proof (no_substitution_no_convolution _ _ _ _ H) as Hnone.
    apply OptimizeSubgraphView_layers in H as (Hs & Hf & Hu).
    unfold partition_layers. rewrite Hs, Hf, Hu, app_nil_r.
    destruct (GetSubstitutions ov).
    - by rewrite Hnone.
    - rewrite iterate_values.
      + rewrite filter_app_complement. apply reverse_Permutation.
      + unfold unique_guids in Hnd. by rewrite fmap_reverse, reverse_Permutation. }
  split; [done|]. rewrite Hperm. by apply (NoDup_fmap_1 GetGuid).
Qed.

(** C3.  When [OptimizeSubgraphView] returns without any substitution,
    its untouched partition is the one-element list holding the input
    view itself. *)
Theorem no_substitution_whole_view_untouched sg guid ov guid' :
  OptimizeSubgraphView CreateOp sg guid = Ok (ov, guid') ->
  GetSubstitutions ov = [] ->
  GetUntouchedSubgraphs ov = [sg].
Proof.
  intros H Hs. apply OptimizeSubgraphView_inv in H as (_ & _ & Hu).
  by rewrite Hs in Hu.
Qed.

(** C8.  When [OptimizeSubgraphView] returns with at least one
    substitution, every layer of the input view that no substitution
    consumed is reported as an untouched view of its own, and so is among
    the layers of the untouched partition. *)
Theorem remaining_layers_reported sg guid ov guid' :
  unique_guids sg ->
  OptimizeSubgraphView CreateOp sg guid = Ok (ov, guid') ->
  GetSubstitutions ov ≠ [] ->
  forall l, l ∈ GetIConnectableLayers sg -> l ∉ substituted_layers ov ->
    SubgraphView_of_layer l ∈ GetUntouchedSubgraphs ov /\
    l ∈ untouched_layers ov.
Proof.
  intros Hnd H Hne l Hl Hns.
  assert (Hnd' : NoDup (GetGuid <$> reverse (GetIConnectableLayers sg))).
  { unfold unique_guids in Hnd. by rewrite fmap_reverse, reverse_Permutation. }
  pose proof (OptimizeSubgraphView_inv _ _ _ _ H) as (_ & _ & Hu).
  apply OptimizeSubgraphView_layers in H as (Hs & _ & Hul).
  destruct (GetSubstitutions ov) as [|p ps]; [done|].
  assert (Hin : l ∈ (std_map_iterate
                       (remaining (reverse (GetIConnectableLayers sg)))).*2).
  { rewrite iterate_values by done. apply list_elem_of_filter. split.
    - intros Hc. apply Hns. rewrite Hs. apply list_elem_of_filter.
      split; [done | by apply elem_of_reverse].
    - by apply elem_of_reverse. }
  rewrite Hu, Hul. split; [by apply list_elem_of_fmap_2 | done].
Qed.

(** C9.  Whenever [OptimizeSubgraphView] returns: every substituted layer
    has type [Convolution2d], every layer of the input view of another
    type is among the layers of the untouched partition, and the failed
    partition is empty. *)
Theorem only_convolution2d_substituted sg guid ov guid' :
  unique_guids sg ->
  OptimizeSubgraphView CreateOp sg guid = Ok (ov, guid') ->
  (forall l, l ∈ substituted_layers ov -> GetType l = Convolution2d) /\
  (forall l, l ∈ GetIConnectableLayers sg -> GetType l ≠ Convolution2d ->
     l ∈ untouched_layers ov) /\
  GetFailedSubgraphs ov = [].
Proof.
  intros Hnd H.
  assert (Hnd' : NoDup (GetGuid <$> reverse (GetIConnectableLayers sg))).
  { unfold unique_guids in Hnd. by rewrite fmap_reverse, reverse_Permutation. }
  pose proof (OptimizeSubgraphView_inv _ _ _ _ H) as (_ & Hf & _).
  apply OptimizeSubgraphView_layers in H as (Hs & _ & Hul).
  split; [|split; [|done]].
  - intros l. rewrite Hs. intros Hin. by apply list_elem_of_filter in Hin as [Hc _].
  - intros l Hl Hc. rewrite Hul. destruct (GetSubstitutions ov); [done|].
    rewrite iterate_values by done. apply list_elem_of_filter.
    split; [done | by apply elem_of_reverse].
Qed.

(** X2.  Every substitution replaces one [Convolution2d] layer by one
    [PreCompiled] layer with the same numbers of input and output slots;
    the output slots whose index is below the number of output slots of
    the whole input view carry the original slot's [TensorInfo]. *)
Lemma substitutions_shape sg guid ov guid' :
  OptimizeSubgraphView CreateOp sg guid = Ok (ov, guid') ->
  Forall (fun p => exists base, is_convolution2d base /\ substitution_of sg base p)
         (GetSubstitutions ov).
Proof.
  intros H. apply OptimizeSubgraphView_inv in H as (HF & _).
  assert (Hc : Forall is_convolution2d
                 (filter is_convolution2d (reverse (GetIConnectableLayers sg)))).
  { apply Forall_forall. intros l Hl. by apply list_elem_of_filter in Hl as [Hl _]. }
  revert Hc. induction HF as [|base p R ps Hp _ IH]; intros Hc; [constructor|].
  apply Forall_cons in Hc as [Hb Hc]. constructor; [by exists base | by apply IH].
Qed.

(** The copy loop returns when both layers have the slots it indexes. *)
Lemma copy_output_infos_returns count i base pre :
  (i + count <= GetNumOutputSlots base)%nat ->
  (i + count <= GetNumOutputSlots pre)%nat ->
  exists pre', copy_output_infos count i base pre = Ok pre'.
Proof.
  unfold GetNumOutputSlots.
  revert i pre; induction count as [|count IH]; intros i pre Hb Hp; simpl.
  - by eexists.
  - unfold GetOutputSlot.
    destruct (lookup_lt_is_Some_2 (m_OutputSlots pre) i) as [d ->]; [lia|].
    destruct (lookup_lt_is_Some_2 (m_OutputSlots base) i) as [src ->]; [lia|].
    simpl. apply IH; [lia|]. simpl. rewrite length_insert. lia.
Qed.

(** [OptimizeSubgraphView] returns whenever the validator accepts every
    [Convolution2d] layer of the view and the view lists no more output
    slots than any of them has. *)
Lemma OptimizeSubgraphView_returns sg guid :
  Forall (fun l => is_convolution2d l ->
            validate_convolution2d CreateOp l = Ok tt /\
            (SubgraphView_GetNumOutputSlots sg <= GetNumOutputSlots l)%nat)
         (GetIConnectableLayers sg) ->
  exists ov guid', OptimizeSubgraphView CreateOp sg guid = Ok (ov, guid').
Proof.
  intros Hall. unfold OptimizeSubgraphView.
  assert (Hloop : forall R st,
            Forall (fun l => is_convolution2d l ->
                      validate_convolution2d CreateOp l = Ok tt /\
                      (SubgraphView_GetNumOutputSlots sg <= GetNumOutputSlots l)%nat) R ->
            exists st', foldM (visit CreateOp sg) st R = Ok st').
  { induction R as [|l R IH]; intros st HR; simpl; [by eexists|].
    apply Forall_cons in HR as [Hl HR].
    destruct (decide (is_convolution2d l)) as [Hc|Hc].
    - destruct (Hl Hc) as [Hv Hn].
      rewrite visit_convolution2d, Hv by done. simpl. unfold substitute.
      edestruct (copy_output_infos_returns (SubgraphView_GetNumOutputSlots sg) 0 l)
        as [pre' ->]; [lia| |simpl; by apply IH].
      unfold GetNumOutputSlots at 1. simpl. rewrite length_replicate. lia.
    - rewrite visit_other by done. by apply IH. }
  destruct (Hloop (reverse (GetIConnectableLayers sg))
              {| optimizationViews := OptimizationViews_new;
                 untouched := collect_untouched sg;
                 nextGuid := guid |}) as [st ->]; [by apply Forall_reverse|].
  simpl. destruct (GetSubstitutions (optimizationViews st)); by eexists _, _.
Qed.

(** X4.  A view without [Convolution2d] layers is never refused, whatever
    the validator and the layers' connections: the call returns the input
    view as its one untouched subgraph, with no substitution, no failed
    subgraph and no layer created. *)
Lemma OptimizeSubgraphView_declines sg guid :
  Forall (fun l => ~ is_convolution2d l) (GetIConnectableLayers sg) ->
  OptimizeSubgraphView CreateOp sg guid
  = Ok (AddUntouchedSubgraph sg OptimizationViews_new, guid).
Proof.
  intros Hall. unfold OptimizeSubgraphView.
  assert (Hloop : forall R st,
            Forall (fun l => ~ is_convolution2d l) R ->
            foldM (visit CreateOp sg) st R = Ok st).
  { induction R as [|l R IH]; intros st HR; simpl; [done|].
    apply Forall_cons in HR as [Hl HR]. rewrite visit_other by done. by apply IH. }
  rewrite Hloop; [done|]. by apply Forall_reverse.
Qed.

End Facts.

End GpuFsaFacts.

(** *** The theorems at concrete views *)

Module GpuFsaExamples.

Import GpuFsa Examples.

Lemma mixed_view_unique_guids : unique_guids mixed_view.
Proof. unfold unique_guids. by apply (bool_decide_unpack _). Qed.

Lemma mixed_view_returns :
  OptimizeSubgraphView always_valid mixed_view 100 = Ok (fst mixed_result, snd mixed_result).
Proof. by vm_compute. Qed.

Lemma declined_view_returns :
  OptimizeSubgraphView always_valid declined_view 100
  = Ok (fst declined_result, snd declined_result).
Proof. by vm_compute. Qed.

(** The partition theorem on activation 7, convolution 5, activation 9,
    activation 3. *)
Lemma OptimizeSubgraphView_partition_mixed :
  unique_guids mixed_view /\
  OptimizeSubgraphView always_valid mixed_view 100
    = Ok (fst mixed_result, snd mixed_result) /\
  partition_layers (fst mixed_result) ≡ₚ GetIConnectableLayers mixed_view /\
  NoDup (partition_layers (fst mixed_result)).
Proof.
  split; [exact mixed_view_unique_guids|]. split; [exact mixed_view_returns|].
  exact (GpuFsaFacts.OptimizeSubgraphView_partition always_valid mixed_view 100
           (fst mixed_result) (snd mixed_result) mixed_view_unique_guids
           mixed_view_returns).
Defined.

(** A view of two activations: no substitution, the view is the single
    untouched entry. *)
Lemma no_substitution_declined :
  OptimizeSubgraphView always_valid declined_view 100
    = Ok (fst declined_result, snd declined_result) /\
  GetSubstitutions (fst declined_result) = [] /\
  GetUntouchedSubgraphs (fst declined_result) = [declined_view].
Proof.
  split; [exact declined_view_returns|]. split; [reflexivity|].
  exact (GpuFsaFacts.no_substitution_whole_view_untouched always_valid declined_view
           100 (fst declined_result) (snd declined_result) declined_view_returns eq_refl).
Defined.

Lemma mixed_result_substitutes : GetSubstitutions (fst mixed_result) ≠ [].
Proof. discriminate. Qed.

Lemma activation_9_in_view : activation 9 ∈ GetIConnectableLayers mixed_view.
Proof. simpl. do 2 apply list_elem_of_further. apply list_elem_of_here. Qed.

Lemma activation_9_not_substituted : activation 9 ∉ substituted_layers (fst mixed_result).
Proof.
  change (substituted_layers (fst mixed_result)) with [convolution 5].
  intros H. apply list_elem_of_singleton in H. discriminate H.
Qed.

(** Activation 9 sits next to the substituted convolution 5 and is
    reported. *)
Lemma remaining_layers_reported_mixed :
  GetSubstitutions (fst mixed_result) ≠ [] /\
  activation 9 ∈ GetIConnectableLayers mixed_view /\
  (activation 9 ∉ substituted_layers (fst mixed_result)) /\
  SubgraphView_of_layer (activation 9) ∈ GetUntouchedSubgraphs (fst mixed_result) /\
  activation 9 ∈ untouched_layers (fst mixed_result).
Proof.
  split; [exact mixed_result_substitutes|]. split; [exact activation_9_in_view|].
  split; [exact activation_9_not_substituted|].
  exact (GpuFsaFacts.remaining_layers_reported always_valid mixed_view 100
           (fst mixed_result) (snd mixed_result) mixed_view_unique_guids mixed_view_returns
           mixed_result_substitutes (activation 9) activation_9_in_view
           activation_9_not_substituted).
Defined.

Lemma only_convolution2d_substituted_mixed :
  unique_guids mixed_view /\
  (forall l, l ∈ substituted_layers (fst mixed_result) -> GetType l = Convolution2d) /\
  (forall l, l ∈ GetIConnectableLayers mixed_view -> GetType l ≠ Convolution2d ->
     l ∈ untouched_layers (fst mixed_result)) /\
  GetFailedSubgraphs (fst mixed_result) = [].
Proof.
  split; [exact mixed_view_unique_guids|].
  exact (GpuFsaFacts.only_convolution2d_substituted always_valid mixed_view 100
           (fst mixed_result) (snd mixed_result) mixed_view_unique_guids mixed_view_returns).
Defined.

(** C4.  The placeholder's output [TensorInfo] is copied for as many
    slots as the input view has output slots, not for as many as the
    original layer has.  On a view of one [Convolution2d] layer that lists
    no output slot, the call returns one substitution whose placeholder
    has the original's three input slots and one output slot, and that
    output slot still carries the default [TensorInfo], not the
    [TensorInfo] of the original layer's output slot. *)
Theorem placeholder_output_info_not_copied :
  OptimizeSubgraphView always_valid no_output_view 100
    = Ok (fst no_output_result, snd no_output_result) /\
  exists pre,
    GetSubstitutions (fst no_output_result) =
      [ {| m_SubstitutableSubgraph := SubgraphView_of_layer (convolution 1);
           m_ReplacementSubgraph := SubgraphView_of_layer pre |} ] /\
    GetNumInputSlots pre = GetNumInputSlots (convolution 1) /\
    GetNumOutputSlots pre = GetNumOutputSlots (convolution 1) /\
    GetTensorInfo <$> m_OutputSlots (convolution 1) = [tensor_1x2x2x1] /\
    GetTensorInfo <$> m_OutputSlots pre = [TensorInfo_default] /\
    tensor_1x2x2x1 ≠ TensorInfo_default.
Proof.
  split; [by vm_compute|].
  exists (AddPrecompiledLayer {| m_NumInputSlots := 3; m_NumOutputSlots := 1 |}
            "GpuFsa_Pre_Compiled_Layer" 100).
  split; [reflexivity|]. repeat split. discriminate.
Qed.

(** On the view of one biased convolution with its own output slot as
    boundary, the result is one substitution, nothing untouched, nothing
    failed, and the placeholder's output slot carries the original's
    [TensorInfo]. *)
Lemma single_convolution_substituted :
  exists ov pre,
    OptimizeSubgraphView always_valid single_convolution_view 100 = Ok (ov, 101) /\
    GetSubstitutions ov =
      [ {| m_SubstitutableSubgraph := SubgraphView_of_layer (convolution 1);
           m_ReplacementSubgraph := SubgraphView_of_layer pre |} ] /\
    GetUntouchedSubgraphs ov = [] /\
    GetFailedSubgraphs ov = [] /\
    GetNumInputSlots pre = 3%nat /\
    GetTensorInfo <$> m_OutputSlots pre = [tensor_1x2x2x1].
Proof.
  eexists _, (SetTensorInfo
                (AddPrecompiledLayer {| m_NumInputSlots := 3; m_NumOutputSlots := 1 |}
                   "GpuFsa_Pre_Compiled_Layer" 100) 0 tensor_1x2x2x1).
  split; [by vm_compute|]. by repeat split.
Qed.

(** The same loop bound on a view that lists more output slots than the
    layer has: the copy indexes past the layer's last output slot and the
    whole call throws. *)
Lemma two_output_view_throws :
  OptimizeSubgraphView always_valid two_output_view 100 = Throw OutOfRange.
Proof. by vm_compute. Qed.

End GpuFsaExamples.

(** *** Memory-source flags *)

Module GpuFsaFlags.

Import GpuFsa.

Section Registry.

Context {TensorHandleFactoryRegistry : Type}.
Variable RegisterMemoryManager :
  GpuFsaMemoryManager -> TensorHandleFactoryRegistry -> TensorHandleFactoryRegistry.
Variable RegisterFactory :
  GpuFsaTensorHandleFactory -> TensorHandleFactoryRegistry -> TensorHandleFactoryRegistry.

Lemma normalize_flags_input fl :
  inputFlags (normalize_flags fl) =
    if decide (inputFlags fl = MemorySource_to_flags Undefined)
    then MemorySource_to_flags Malloc else inputFlags fl.
Proof.
  unfold normalize_flags; simpl.
  case_decide as H; [by rewrite H | by apply N.eqb_neq in H as ->].
Qed.

Lemma normalize_flags_output fl :
  outputFlags (normalize_flags fl) =
    if decide (outputFlags fl = MemorySource_to_flags Undefined)
    then MemorySource_to_flags Malloc else outputFlags fl.
Proof.
  unfold normalize_flags; simpl.
  case_decide as H; [by rewrite H | by apply N.eqb_neq in H as ->].
Qed.

(** C7.  In both flag-taking overloads a flags value equal to [Undefined]
    has become [Malloc] by the time the factory is built, any other value
    is kept, so neither flag variable equals [Undefined] from then on; the
    tensor-handle factory is built from the memory manager alone and the
    registry ends up exactly as the overload without flags leaves it. *)
Theorem undefined_flags_normalized backend registry inF outF :
  let created :=
    CreateWorkloadFactory_flags RegisterMemoryManager RegisterFactory
      backend registry inF outF in
  let registered :=
    RegisterTensorHandleFactories_flags RegisterMemoryManager RegisterFactory
      backend registry inF outF in
  snd created = snd registered /\
  (inF = MemorySource_to_flags Undefined ->
     inputFlags (snd created) = MemorySource_to_flags Malloc) /\
  (inF ≠ MemorySource_to_flags Undefined -> inputFlags (snd created) = inF) /\
  (outF = MemorySource_to_flags Undefined ->
     outputFlags (snd created) = MemorySource_to_flags Malloc) /\
  (outF ≠ MemorySource_to_flags Undefined -> outputFlags (snd created) = outF) /\
  inputFlags (snd created) ≠ MemorySource_to_flags Undefined /\
  outputFlags (snd created) ≠ MemorySource_to_flags Undefined /\
  fst created = CreateWorkloadFactory RegisterMemoryManager RegisterFactory
                  backend registry /\
  fst registered = RegisterTensorHandleFactories RegisterMemoryManager RegisterFactory
                     backend registry.
Proof.
  unfold CreateWorkloadFactory_flags, RegisterTensorHandleFactories_flags,
    CreateWorkloadFactory, RegisterTensorHandleFactories; cbn [fst snd].
  split; [done|].
  rewrite normalize_flags_input, normalize_flags_output; cbn [inputFlags outputFlags].
  repeat split; intros; case_decide; done.
Qed.

End Registry.

End GpuFsaFlags.

(** ** The OpenCL import tensor handles *)

Module ClImportFacts.

Import ClImport.

(** The four copy [switch]es have the same [case] labels. *)
Lemma cast_defined_iff (dt : DataType) :
  (is_Some (CopyOutTo_cast dt) <-> dt ∈ copy_case_labels) /\
  (is_Some (CopyInFrom_cast dt) <-> dt ∈ copy_case_labels) /\
  (is_Some (Sub_CopyOutTo_cast dt) <-> dt ∈ copy_case_labels) /\
  (is_Some (Sub_CopyInFrom_cast dt) <-> dt ∈ copy_case_labels).
Proof.
  assert (Hin : dt ∈ copy_case_labels <-> bool_decide (dt ∈ copy_case_labels) = true).
  { split; [apply bool_decide_eq_true_2 | apply bool_decide_eq_true_1]. }
  rewrite Hin. clear Hin.
  destruct dt; vm_compute;
    repeat split; intros H; try done; try (by eexists); by destruct H.
Qed.

Section Device.

Context {HostMemory : Type}.
Variable clImportMemoryARM : N -> N -> Z * N.
Variable import_memory : CLTensor -> N -> bool * CLTensor.
Variable CopyTensorToHost : HostType -> CLTensor -> N -> HostMemory -> HostMemory.
Variable CopyHostToTensor : HostType -> N -> HostMemory -> CLTensor -> CLTensor.

(** C2.  [Import] with a source whose bit is not set in the handle's
    import flags, or with any source other than [Malloc], throws
    [MemoryImportException] and returns the handle as it was: nothing is
    imported and nothing is copied. *)
Theorem Import_refuses h memory source :
  N.land (m_ImportFlags h) (MemorySource_to_flags source) = 0 \/ source ≠ Malloc ->
  Import clImportMemoryARM import_memory h memory source
  = (Throw MemoryImportException, h).
Proof.
  unfold Import. intros [Hflag|Hsrc].
  - by rewrite Hflag.
  - destruct (negb _); [|done]. by rewrite decide_False.
Qed.

(** C5.  For the handle and for the sub-tensor handle, [CopyOutTo] and
    [CopyInFrom] copy when the element type is one of [F32], [U8],
    [QASYMM8], [QSYMM8_PER_CHANNEL], [QASYMM8_SIGNED], [F16], [S16],
    [QSYMM16], [S32]; on every other element type they throw
    [UnimplementedException] and leave the host memory, respectively the
    handle, unchanged. *)
Theorem copy_paths_closed_dispatch h sub memory host :
  (GetDataType h ∈ copy_case_labels ->
     (exists T, CopyOutTo CopyTensorToHost h memory host
                = (Ok tt, CopyTensorToHost T (m_Tensor h) memory host)) /\
     (exists T, CopyInFrom CopyHostToTensor h memory host
                = (Ok tt, {| m_Tensor := CopyHostToTensor T memory host (m_Tensor h);
                             m_ImportFlags := m_ImportFlags h |}))) /\
  (GetDataType h ∉ copy_case_labels ->
     CopyOutTo CopyTensorToHost h memory host = (Throw UnimplementedException, host) /\
     CopyInFrom CopyHostToTensor h memory host = (Throw UnimplementedException, h)) /\
  (Sub_GetDataType sub ∈ copy_case_labels ->
     (exists T, Sub_CopyOutTo CopyTensorToHost sub memory host
                = (Ok tt, CopyTensorToHost T (sub_Tensor sub) memory host)) /\
     (exists T, Sub_CopyInFrom CopyHostToTensor sub memory host
                = (Ok tt, {| sub_Tensor := CopyHostToTensor T memory host (sub_Tensor sub);
                             parentHandle := parentHandle sub |}))) /\
  (Sub_GetDataType sub ∉ copy_case_labels ->
     Sub_CopyOutTo CopyTensorToHost sub memory host
       = (Throw UnimplementedException, host) /\
     Sub_CopyInFrom CopyHostToTensor sub memory host
       = (Throw UnimplementedException, sub)).
Proof.
  unfold CopyOutTo, CopyInFrom, Sub_CopyOutTo, Sub_CopyInFrom.
  destruct (cast_defined_iff (GetDataType h)) as (H1 & H2 & _ & _).
  destruct (cast_defined_iff (Sub_GetDataType sub)) as (_ & _ & H3 & H4).
  rewrite <- H1, <- H3. rewrite <- H1 in H2. rewrite <- H3 in H4.
  split; [|split; [|split]].
  - intros H. split.
    + destruct H as [T ->]. by exists T.
    + apply H2 in H. destruct H as [T ->]. by exists T.
  - intros H. split.
    + destruct (CopyOutTo_cast (GetDataType h)); [|done]. destruct H; by eexists.
    + destruct (CopyInFrom_cast (GetDataType h)) eqn:E; [|done].
      destruct H. apply H2. by eexists.
  - intros H. split.
    + destruct H as [T ->]. by exists T.
    + apply H4 in H. destruct H as [T ->]. by exists T.
  - intros H. split.
    + destruct (Sub_CopyOutTo_cast (Sub_GetDataType sub)); [|done].
      destruct H; by eexists.
    + destruct (Sub_CopyInFrom_cast (Sub_GetDataType sub)) eqn:E; [|done].
      destruct H. apply H4. by eexists.
Qed.

(** [ClImportTensorHandle::CopyInFrom] on an [S16] tensor instantiates the
    copy at [int8_t]. *)
Lemma CopyInFrom_S16 h memory host :
  GetDataType h = S16 ->
  CopyInFrom CopyHostToTensor h memory host =
    (Ok tt, {| m_Tensor := CopyHostToTensor int8_t memory host (m_Tensor h);
               m_ImportFlags := m_ImportFlags h |}).
Proof. unfold CopyInFrom. by intros ->. Qed.

End Device.

Import Examples.

(** Scenario: a handle flagged for host-malloc'd buffers only is asked to
    import a dma-buf. *)
Lemma Import_refuses_dma_buf :
  (N.land (m_ImportFlags (malloc_handle F32)) (MemorySource_to_flags DmaBuf) = 0
   \/ DmaBuf ≠ Malloc) /\
  Import accept_import bind_buffer (malloc_handle F32) 4096 DmaBuf
  = (Throw MemoryImportException, malloc_handle F32).
Proof.
  assert (H : N.land (m_ImportFlags (malloc_handle F32)) (MemorySource_to_flags DmaBuf) = 0
              \/ DmaBuf ≠ Malloc) by (left; reflexivity).
  split; [exact H|].
  exact (Import_refuses accept_import bind_buffer (malloc_handle F32) 4096 DmaBuf H).
Defined.

(** The flagged, supported source is imported. *)
Lemma Import_accepts_malloc :
  fst (Import accept_import bind_buffer (malloc_handle F32) 4096 Malloc) = Ok true /\
  imported_memory (m_Tensor (snd (Import accept_import bind_buffer
                                    (malloc_handle F32) 4096 Malloc))) = Some 4096.
Proof. by vm_compute. Qed.

(** C5, as stated, fails on 8-bit signed element types: [S8] and [QSYMM8]
    store 8-bit signed elements, and both copy paths of both handles
    throw on them. *)
Lemma signed8_is_refused :
  spec_element S8 = Some int8_t /\
  spec_element QSYMM8 = Some int8_t /\
  CopyOutTo copy_out (malloc_handle S8) 4096 [1; 2; 3; 4]
    = (Throw UnimplementedException, [1; 2; 3; 4]) /\
  CopyInFrom copy_in (malloc_handle S8) 4096 [1; 2; 3; 4]
    = (Throw UnimplementedException, malloc_handle S8) /\
  CopyOutTo copy_out (malloc_handle QSYMM8) 4096 [1; 2; 3; 4]
    = (Throw UnimplementedException, [1; 2; 3; 4]) /\
  CopyInFrom copy_in (malloc_handle QSYMM8) 4096 [1; 2; 3; 4]
    = (Throw UnimplementedException, malloc_handle QSYMM8) /\
  Sub_CopyOutTo copy_out (sub_handle S8) 4096 [1; 2; 3; 4]
    = (Throw UnimplementedException, [1; 2; 3; 4]) /\
  Sub_CopyInFrom copy_in (sub_handle S8) 4096 [1; 2; 3; 4]
    = (Throw UnimplementedException, sub_handle S8).
Proof. repeat split. Qed.

(** The element types of the specification's six kinds and the labelled
    ones differ exactly on [S8] and [QSYMM8]. *)
Lemma spec_element_vs_labels (dt : DataType) :
  is_Some (spec_element dt) <-> dt ∈ copy_case_labels \/ dt = S8 \/ dt = QSYMM8.
Proof.
  assert (Hin : dt ∈ copy_case_labels <-> bool_decide (dt ∈ copy_case_labels) = true).
  { split; [apply bool_decide_eq_true_2 | apply bool_decide_eq_true_1]. }
  rewrite Hin. clear Hin.
  destruct dt; vm_compute; split; intros H;
    first [ by left | by right; left | by right; right | by eexists
          | by destruct H as [H|[H|H]] | by destruct H as [? ?] ].
Qed.

(** C6.  [ClImportTensorHandle::CopyInFrom] groups [S16] with the 8-bit
    signed labels: an [S16] tensor is filled from the host buffer read as
    one-byte [int8_t] elements.  The sibling paths read and write [S16]
    as two-byte [int16_t] elements, as [CopyInFrom] itself does for
    [QSYMM16]. *)
Theorem CopyInFrom_S16_reads_int8 :
  CopyInFrom_cast S16 = Some int8_t /\
  sizeof int8_t = 1 /\
  CopyInFrom copy_in (malloc_handle S16) 4096 [1; 2; 3; 4]
    = (Ok tt, {| m_Tensor := copy_in int8_t 4096 [1; 2; 3; 4] (tensor_of S16);
                 m_ImportFlags := MemorySource_to_flags Malloc |}) /\
  CopyInFrom_cast QSYMM16 = Some int16_t /\
  CopyOutTo_cast S16 = Some int16_t /\
  Sub_CopyInFrom_cast S16 = Some int16_t /\
  Sub_CopyOutTo_cast S16 = Some int16_t /\
  sizeof int16_t = 2.
Proof. repeat split. Qed.

End ClImportFacts.

(** ** Timeline activation *)

Module ProfilingFacts.

Import Profiling.

(** Once the flag is set no invocation changes the handler, whatever the
    collaborators would do. *)
Lemma handle_flag_set call h packet :
  m_TimelineReporting h = true -> snd (handle call h packet) = h.
Proof.
  unfold handle. intros ->.
  destruct (m_ReportStructure_has_value h); [|done].
  destruct (GetCurrentState h); try done. simpl. by destruct (negb _).
Qed.

Lemma completed_all call actions :
  Forall (fun a => call a = Ok tt) actions -> completed call actions = actions.
Proof.
  induction 1 as [|a actions Ha _ IH]; simpl; [done|]. by rewrite Ha, IH.
Qed.

(** An activation attempt: the calls are made in order up to the first
    one that throws; the flag is set once the two sends have returned. *)
Lemma handle_attempt call h packet :
  m_ReportStructure_has_value h = true ->
  GetCurrentState h = Active ->
  GetPacketFamily packet = 0 -> GetPacketId packet = 6 ->
  m_TimelineReporting h = false ->
  GetCurrentState (snd (handle call h packet)) = GetCurrentState h /\
  m_ReportStructure_has_value (snd (handle call h packet)) = true /\
  performed (snd (handle call h packet))
    = performed h ++ completed call activation_actions /\
  (m_TimelineReporting (snd (handle call h packet)) = true <->
     call SendTimelineMessageDirectoryPackage = Ok tt /\
     call SendWellKnownLabelsAndEventClasses = Ok tt) /\
  (fst (handle call h packet) = Ok tt <->
     Forall (fun a => call a = Ok tt) activation_actions).
Proof.
  unfold handle, activation_actions. intros Hrs Hst -> -> Hflag.
  rewrite Hrs, Hst, Hflag, !Forall_cons, Forall_nil. simpl.
  destruct (call SendTimelineMessageDirectoryPackage) as [[]|e1];
    destruct (call SendWellKnownLabelsAndEventClasses) as [[]|e2];
    destruct (call ReportStructure) as [[]|e3];
    destruct (call NotifyBackendsForTimelineReporting) as [[]|e4];
    simpl; rewrite ?app_nil_r, <- ?app_assoc, ?Hrs, ?Hflag; simpl;
    (split; [done|]); (split; [done|]); (split; [done|]);
    intuition congruence.
Qed.

(** C10.  Without a report structure every invocation throws the base
    [armnn::Exception], in any state, and changes nothing.  With one: in
    the states [Uninitialised], [NotConnected] and [WaitingForAck] the
    handler throws [RuntimeException] and changes nothing; in [Active]
    with a packet of family 0 and id 6, nothing is called when the flag
    is already true, and otherwise the four collaborators are called in
    order up to the first call that throws, the flag being set once the
    two sends have returned; when all four calls return the invocation
    returns with the flag true and the four actions performed.  Once the
    flag is true no later invocation changes anything further. *)
Theorem timeline_activation call h packet :
  (m_ReportStructure_has_value h = false ->
     handle call h packet = (Throw ArmnnException, h)) /\
  (m_ReportStructure_has_value h = true ->
     (GetCurrentState h = Uninitialised \/ GetCurrentState h = NotConnected \/
      GetCurrentState h = WaitingForAck ->
        handle call h packet = (Throw RuntimeException, h)) /\
     (GetCurrentState h = Active ->
      GetPacketFamily packet = 0 -> GetPacketId packet = 6 ->
        (m_TimelineReporting h = true -> handle call h packet = (Ok tt, h)) /\
        (m_TimelineReporting h = false ->
           performed (snd (handle call h packet))
             = performed h ++ completed call activation_actions /\
           (m_TimelineReporting (snd (handle call h packet)) = true <->
              call SendTimelineMessageDirectoryPackage = Ok tt /\
              call SendWellKnownLabelsAndEventClasses = Ok tt) /\
           (Forall (fun a => call a = Ok tt) activation_actions ->
              fst (handle call h packet) = Ok tt /\
              m_TimelineReporting (snd (handle call h packet)) = true /\
              performed (snd (handle call h packet))
                = performed h ++ activation_actions)) /\
        (m_TimelineReporting (snd (handle call h packet)) = true ->
           forall call' packet',
             snd (handle call' (snd (handle call h packet)) packet')
             = snd (handle call h packet)))).
Proof.
  split.
  - unfold handle. by intros ->.
  - intros Hrs. split.
    + unfold handle. rewrite Hrs. by intros [->|[->| ->]].
    + intros Hst Hfam Hid. split; [|split].
      * unfold handle. rewrite Hrs, Hst, Hfam, Hid. by intros ->.
      * intros Hflag.
        destruct (handle_attempt call h packet Hrs Hst Hfam Hid Hflag)
          as (_ & _ & Hperf & Hset & Hok).
        split; [done|]. split; [done|]. intros Hall.
        split; [by apply Hok|]. split.
        -- apply Hset. apply Forall_cons in Hall as [H1 Hall].
           by apply Forall_cons in Hall as [H2 _].
        -- by rewrite Hperf, completed_all.
      * intros Hon call' packet'. by apply handle_flag_set.
Qed.

Import Examples.

(** C10, as stated, fails when the handler has no report structure: in
    [NotConnected] (as in the other two pre-connection states) the
    exception thrown is the base [armnn::Exception]. *)
Lemma activation_without_report_structure :
  handle all_return (handler_in NotConnected false) activate_packet
    = (Throw ArmnnException, handler_in NotConnected false) /\
  handle all_return (handler_in Uninitialised false) activate_packet
    = (Throw ArmnnException, handler_in Uninitialised false) /\
  handle all_return (handler_in WaitingForAck false) activate_packet
    = (Throw ArmnnException, handler_in WaitingForAck false) /\
  ArmnnException ≠ RuntimeException.
Proof. repeat split. discriminate. Qed.

(** A first activation with collaborators that return, followed by any
    second invocation. *)
Lemma timeline_activation_twice :
  fst (handle all_return (handler_in Active true) activate_packet) = Ok tt /\
  m_TimelineReporting
    (snd (handle all_return (handler_in Active true) activate_packet)) = true /\
  performed (snd (handle all_return (handler_in Active true) activate_packet))
    = activation_actions /\
  forall call' packet',
    snd (handle call'
           (snd (handle all_return (handler_in Active true) activate_packet)) packet')
    = snd (handle all_return (handler_in Active true) activate_packet).
Proof.
  destruct (timeline_activation all_return (handler_in Active true) activate_packet)
    as [_ H].
  destruct (H eq_refl) as [_ Hactive].
  destruct (Hactive eq_refl eq_refl eq_refl) as (_ & Hoff & Hlater).
  destruct (Hoff eq_refl) as (_ & _ & Hall).
  assert (Hret : Forall (fun a => all_return a = Ok tt) activation_actions)
    by (by repeat constructor).
  destruct (Hall Hret) as (Hok & Hon & Hperf).
  split; [exact Hok|]. split; [exact Hon|]. split; [exact Hperf|].
  exact (Hlater Hon).
Defined.

(** When the structure report throws, the invocation throws with the flag
    already set and the two sends done; when the second send throws, the
    flag stays false and the next attempt sends the directory package
    again. *)
Lemma activation_interrupted :
  handle report_throws (handler_in Active true) activate_packet
    = (Throw RuntimeException,
       {| GetCurrentState := Active; m_ReportStructure_has_value := true;
          m_TimelineReporting := true;
          performed := [SendTimelineMessageDirectoryPackage;
                        SendWellKnownLabelsAndEventClasses] |}) /\
  handle labels_throw (handler_in Active true) activate_packet
    = (Throw RuntimeException,
       {| GetCurrentState := Active; m_ReportStructure_has_value := true;
          m_TimelineReporting := false;
          performed := [SendTimelineMessageDirectoryPackage] |}) /\
  performed
    (snd (handle all_return
            (snd (handle labels_throw (handler_in Active true) activate_packet))
            activate_packet))
    = SendTimelineMessageDirectoryPackage :: activation_actions.
Proof. repeat split. Qed.

End ProfilingFacts.

(** ** Further properties of the embedded code *)

Module GpuFsaCoverage.

Import GpuFsa.

Section Facts.

Variable CreateOp :
  TensorInfo -> Convolution2dDescriptor -> TensorInfo -> option TensorInfo
  -> Result unit.

(** X6.  A validation that succeeds has found input slots 0 and 1
    connected and the parameters to be a convolution descriptor, and has
    handed the validator the [TensorInfo] behind slot 0 as input and the
    one behind slot 1 as weights; the [TensorInfo] behind slot 2 is read,
    and passed as bias, exactly when the descriptor enables bias. *)
Theorem validate_convolution2d_operands base :
  validate_convolution2d CreateOp base = Ok tt ->
  exists producer0 producer1 desc,
    m_InputSlots base !! 0%nat = Some {| GetConnectedOutputSlot := Some producer0 |} /\
    m_InputSlots base !! 1%nat = Some {| GetConnectedOutputSlot := Some producer1 |} /\
    GetParameters base = Convolution2dParameters desc /\
    if m_BiasEnabled desc then
      exists producer2,
        m_InputSlots base !! 2%nat = Some {| GetConnectedOutputSlot := Some producer2 |} /\
        CreateOp (GetTensorInfo producer0) desc (GetTensorInfo producer1)
                 (Some (GetTensorInfo producer2)) = Ok tt
    else
      CreateOp (GetTensorInfo producer0) desc (GetTensorInfo producer1) None = Ok tt.
Proof.
  unfold validate_convolution2d, GetInputSlot, ConnectedTensorInfo, DowncastConvolution2d.
  intros H.
  destruct (m_InputSlots base !! 0%nat) as [[[p0|]]|]; try discriminate H.
  destruct (m_InputSlots base !! 1%nat) as [[[p1|]]|]; try discriminate H.
  destruct (GetParameters base) as [desc| |]; try discriminate H.
  simpl in H. exists p0, p1, desc. repeat split.
  destruct (m_BiasEnabled desc); [|exact H].
  destruct (m_InputSlots base !! 2%nat) as [[[p2|]]|]; try discriminate H.
  exists p2. split; [done | exact H].
Qed.

Lemma visit_loop_accepts sg R st st' :
  foldM (visit CreateOp sg) st R = Ok st' ->
  Forall (fun l => is_convolution2d l ->
            validate_convolution2d CreateOp l = Ok tt /\
            (SubgraphView_GetNumOutputSlots sg <= GetNumOutputSlots l)%nat) R.
Proof.
  revert st; induction R as [|base R IH]; intros st H; simpl in H; [constructor|].
  destruct (visit CreateOp sg st base) as [st1|e] eqn:Hv; [|discriminate].
  constructor; [|by eapply IH].
  intros Hc. rewrite GpuFsaFacts.visit_convolution2d in Hv by done.
  apply bind_Ok_inv in Hv as ([] & Hval & Hsub). split; [done|].
  unfold substitute in Hsub. apply bind_Ok_inv in Hsub as (pre & Hcopy & _).
  destruct (SubgraphView_GetNumOutputSlots sg) as [|n] eqn:Hn; [lia|].
  destruct (GpuFsaFacts.copy_output_infos_copied _ _ _ _ _ Hcopy n) as (src & _ & Hsrc & _);
    [lia|].
  apply lookup_lt_Some in Hsrc. unfold GetNumOutputSlots. lia.
Qed.

(** X1.  [OptimizeSubgraphView] returns (rather than throws) exactly when
    every [Convolution2d] layer of the view passes validation and has at
    least as many output slots as the view lists boundary output slots. *)
Theorem OptimizeSubgraphView_returns_iff sg guid :
  (exists ov guid', OptimizeSubgraphView CreateOp sg guid = Ok (ov, guid')) <->
  Forall (fun l => is_convolution2d l ->
            validate_convolution2d CreateOp l = Ok tt /\
            (SubgraphView_GetNumOutputSlots sg <= GetNumOutputSlots l)%nat)
         (GetIConnectableLayers sg).
Proof.
  split; [|apply GpuFsaFacts.OptimizeSubgraphView_returns].
  intros (ov & guid' & H). unfold OptimizeSubgraphView in H.
  apply bind_Ok_inv in H as (st & Hloop & _).
  apply visit_loop_accepts in Hloop. by rewrite Forall_reverse in Hloop.
Qed.

(** X3.  Whenever [OptimizeSubgraphView] returns, the substitutions are,
    in order, one per [Convolution2d] layer of the view taken from the
    last layer to the first, and the original region of each is that one
    layer alone. *)
Theorem every_convolution2d_substituted sg guid ov guid' :
  OptimizeSubgraphView CreateOp sg guid = Ok (ov, guid') ->
  (fun p => GetIConnectableLayers (m_SubstitutableSubgraph p)) <$> GetSubstitutions ov
  = (fun l => [l]) <$> filter is_convolution2d (reverse (GetIConnectableLayers sg)).
Proof.
  intros H. apply GpuFsaFacts.OptimizeSubgraphView_inv in H as (HF & _).
  induction HF as [|base p R ps [Hp _] _ IH]; [done|].
  rewrite !fmap_cons, Hp, IH. done.
Qed.

Lemma ReportUntouchedLayers_network ov m :
  GetINetwork (ReportUntouchedLayers ov m) = GetINetwork ov.
Proof.
  unfold ReportUntouchedLayers. generalize (std_map_iterate m) as l.
  intros l; revert ov; induction l as [|p l IH]; intros ov; simpl; [done|].
  by rewrite IH.
Qed.

Lemma visit_loop_network sg R st st' :
  foldM (visit CreateOp sg) st R = Ok st' ->
  Forall2 (fun layer p => m_ReplacementSubgraph p = SubgraphView_of_layer layer /\
                          GetType layer = PreCompiled)
          (GetINetwork (optimizationViews st)) (GetSubstitutions (optimizationViews st)) ->
  Forall2 (fun layer p => m_ReplacementSubgraph p = SubgraphView_of_layer layer /\
                          GetType layer = PreCompiled)
          (GetINetwork (optimizationViews st')) (GetSubstitutions (optimizationViews st')).
Proof.
  revert st; induction R as [|base R IH]; intros st H Hinv; simpl in H.
  - by injection H as <-.
  - destruct (visit CreateOp sg st base) as [st1|e] eqn:Hv; [|discriminate].
    apply (IH st1 H). clear IH H.
    destruct (decide (is_convolution2d base)) as [Hc|Hc].
    + rewrite GpuFsaFacts.visit_convolution2d in Hv by done.
      apply bind_Ok_inv in Hv as (_ & _ & Hsub). unfold substitute in Hsub.
      apply bind_Ok_inv in Hsub as (pre & Hcopy & Hst). injection Hst as <-. simpl.
      apply Forall2_app; [done|]. constructor; [|constructor]. split; [done|].
      by apply GpuFsaFacts.copy_output_infos_shape in Hcopy as (-> & _).
    + rewrite GpuFsaFacts.visit_other in Hv by done. by injection Hv as <-.
Qed.

(** X5.  Whenever [OptimizeSubgraphView] returns, the layers of the
    network owned by the result are, in order, the replacement layers of
    its substitutions: each replacement view is the view of one layer of
    that network, of type [PreCompiled]. *)
Theorem replacements_live_in_the_views_network sg guid ov guid' :
  OptimizeSubgraphView CreateOp sg guid = Ok (ov, guid') ->
  Forall2 (fun layer p => m_ReplacementSubgraph p = SubgraphView_of_layer layer /\
                          GetType layer = PreCompiled)
          (GetINetwork ov) (GetSubstitutions ov).
Proof.
  unfold OptimizeSubgraphView. intros H.
  apply bind_Ok_inv in H as (st & Hloop & H).
  apply visit_loop_network in Hloop; [|constructor].
  destruct (GetSubstitutions (optimizationViews st)) as [|p ps] eqn:Hs;
    injection H as <- <-.
  - simpl. by rewrite Hs.
  - destruct (GpuFsaFacts.ReportUntouchedLayers_spec (optimizationViews st) (untouched st))
      as (-> & _).
    by rewrite ReportUntouchedLayers_network, Hs.
Qed.

End Facts.

Import Examples Scenarios.

Lemma chain_view_returns :
  OptimizeSubgraphView always_valid chain_view 100 = Ok (fst chain_result, snd chain_result).
Proof. by vm_compute. Qed.

Lemma validate_convolution2d_operands_biased :
  validate_convolution2d always_valid (convolution 6) = Ok tt /\
  exists producer0 producer1 desc,
    m_InputSlots (convolution 6) !! 0%nat
      = Some {| GetConnectedOutputSlot := Some producer0 |} /\
    m_InputSlots (convolution 6) !! 1%nat
      = Some {| GetConnectedOutputSlot := Some producer1 |} /\
    GetParameters (convolution 6) = Convolution2dParameters desc /\
    if m_BiasEnabled desc then
      exists producer2,
        m_InputSlots (convolution 6) !! 2%nat
          = Some {| GetConnectedOutputSlot := Some producer2 |} /\
        always_valid (GetTensorInfo producer0) desc (GetTensorInfo producer1)
                     (Some (GetTensorInfo producer2)) = Ok tt
    else
      always_valid (GetTensorInfo producer0) desc (GetTensorInfo producer1) None = Ok tt.
Proof.
  split; [reflexivity|].
  exact (validate_convolution2d_operands always_valid (convolution 6) eq_refl).
Defined.

Lemma every_convolution2d_substituted_chain :
  OptimizeSubgraphView always_valid chain_view 100
    = Ok (fst chain_result, snd chain_result) /\
  (fun p => GetIConnectableLayers (m_SubstitutableSubgraph p))
    <$> GetSubstitutions (fst chain_result)
  = [[convolution 6]; [plain_convolution 4]].
Proof.
  split; [exact chain_view_returns|].
  exact (every_convolution2d_substituted always_valid chain_view 100
           (fst chain_result) (snd chain_result) chain_view_returns).
Defined.

Lemma substitutions_shape_chain :
  OptimizeSubgraphView always_valid chain_view 100
    = Ok (fst chain_result, snd chain_result) /\
  Forall (fun p => exists base, is_convolution2d base /\ substitution_of chain_view base p)
         (GetSubstitutions (fst chain_result)).
Proof.
  split; [exact chain_view_returns|].
  exact (GpuFsaFacts.substitutions_shape always_valid chain_view 100
           (fst chain_result) (snd chain_result) chain_view_returns).
Defined.

Lemma replacements_live_in_the_views_network_chain :
  OptimizeSubgraphView always_valid chain_view 100
    = Ok (fst chain_result, snd chain_result) /\
  Forall2 (fun layer p => m_ReplacementSubgraph p = SubgraphView_of_layer layer /\
                          GetType layer = PreCompiled)
          (GetINetwork (fst chain_result)) (GetSubstitutions (fst chain_result)).
Proof.
  split; [exact chain_view_returns|].
  exact (replacements_live_in_the_views_network always_valid chain_view 100
           (fst chain_result) (snd chain_result) chain_view_returns).
Defined.

Lemma declined_view_has_no_convolution :
  Forall (fun l => ~ is_convolution2d l) (GetIConnectableLayers declined_view).
Proof. repeat constructor; discriminate. Qed.

Lemma OptimizeSubgraphView_declines_activations :
  Forall (fun l => ~ is_convolution2d l) (GetIConnectableLayers declined_view) /\
  OptimizeSubgraphView always_valid declined_view 100
  = Ok (AddUntouchedSubgraph declined_view OptimizationViews_new, 100).
Proof.
  split; [exact declined_view_has_no_convolution|].
  exact (GpuFsaFacts.OptimizeSubgraphView_declines always_valid declined_view 100
           declined_view_has_no_convolution).
Defined.

End GpuFsaCoverage.

Module TestUtilsFacts.

Import GpuFsa.

Lemma push_back_slots (g : N) (slots : list nat) (result : list SlotRef) :
  foldl (fun result it => result ++ [(g, it)]) result slots
  = result ++ ((fun i => (g, i)) <$> slots).
Proof.
  revert result; induction slots as [|i slots IH]; intros result; simpl.
  - by rewrite app_nil_r.
  - by rewrite IH, <- app_assoc.
Qed.

Lemma CreateInputsFrom_foldl (layers : list Layer) (result : list SlotRef) :
  foldl (fun result layer =>
           foldl (fun result it => result ++ [(GetGuid layer, it)])
                 result (seq 0 (GetNumInputSlots layer)))
        result layers
  = result ++ mjoin (GpuFsa.CreateInputsFrom <$> layers).
Proof.
  revert result; induction layers as [|l layers IH]; intros result; simpl.
  - by rewrite app_nil_r.
  - by rewrite IH, push_back_slots, <- app_assoc.
Qed.

Lemma CreateOutputsFrom_foldl (layers : list Layer) (result : list SlotRef) :
  foldl (fun result layer =>
           foldl (fun result it => result ++ [(GetGuid layer, it)])
                 result (seq 0 (GetNumOutputSlots layer)))
        result layers
  = result ++ mjoin (GpuFsa.CreateOutputsFrom <$> layers).
Proof.
  revert result; induction layers as [|l layers IH]; intros result; simpl.
  - by rewrite app_nil_r.
  - by rewrite IH, push_back_slots, <- app_assoc.
Qed.

Lemma CreateInputsFrom_join layers :
  TestUtils.CreateInputsFrom layers = mjoin (GpuFsa.CreateInputsFrom <$> layers).
Proof. unfold TestUtils.CreateInputsFrom. by rewrite CreateInputsFrom_foldl. Qed.

Lemma CreateOutputsFrom_join layers :
  TestUtils.CreateOutputsFrom layers = mjoin (GpuFsa.CreateOutputsFrom <$> layers).
Proof. unfold TestUtils.CreateOutputsFrom. by rewrite CreateOutputsFrom_foldl. Qed.

(** X7.  The slot lists the test helpers collect over a vector of layers
    are the concatenation, in layer order, of the lists for its parts, and
    hold one entry per slot of every layer; within a layer the slots come
    in index order: the list is, layer after layer, the layer's slots
    0, 1, ... up to its slot count. *)
Theorem slot_lists_concatenate (a b : list Layer) :
  TestUtils.CreateInputsFrom (a ++ b)
    = TestUtils.CreateInputsFrom a ++ TestUtils.CreateInputsFrom b /\
  TestUtils.CreateOutputsFrom (a ++ b)
    = TestUtils.CreateOutputsFrom a ++ TestUtils.CreateOutputsFrom b /\
  length (TestUtils.CreateInputsFrom a) = sum_list (GetNumInputSlots <$> a) /\
  length (TestUtils.CreateOutputsFrom a) = sum_list (GetNumOutputSlots <$> a) /\
  TestUtils.CreateInputsFrom a
    = mjoin ((fun layer =>
                (fun i => (GetGuid layer, i)) <$> seq 0 (GetNumInputSlots layer))
             <$> a) /\
  TestUtils.CreateOutputsFrom a
    = mjoin ((fun layer =>
                (fun i => (GetGuid layer, i)) <$> seq 0 (GetNumOutputSlots layer))
             <$> a) /\
  (forall layer i,
     (i < GetNumInputSlots layer)%nat ->
     TestUtils.CreateInputsFrom [layer] !! i = Some (GetGuid layer, i)) /\
  (forall layer i,
     (i < GetNumOutputSlots layer)%nat ->
     TestUtils.CreateOutputsFrom [layer] !! i = Some (GetGuid layer, i)).
Proof.
  rewrite !CreateInputsFrom_join, !CreateOutputsFrom_join, !fmap_app, !join_app.
  split; [done|]. split; [done|]. split; [|split]; [| |split; [done|]; split; [done|]; split].
  - rewrite length_join, <- list_fmap_compose. f_equal. apply list_fmap_ext.
    intros _ l _. unfold GpuFsa.CreateInputsFrom; simpl.
    by rewrite length_fmap, length_seq.
  - rewrite length_join, <- list_fmap_compose. f_equal. apply list_fmap_ext.
    intros _ l _. unfold GpuFsa.CreateOutputsFrom; simpl.
    by rewrite length_fmap, length_seq.
  - intros layer i Hi. rewrite CreateInputsFrom_join. simpl. rewrite app_nil_r.
    unfold GpuFsa.CreateInputsFrom. rewrite list_lookup_fmap, lookup_seq_lt by done.
    done.
  - intros layer i Hi. rewrite CreateOutputsFrom_join. simpl. rewrite app_nil_r.
    unfold GpuFsa.CreateOutputsFrom. rewrite list_lookup_fmap, lookup_seq_lt by done.
    done.
Qed.

(** X8.  On a one-element vector the test helpers build the same view as
    the backend's own helpers build for that layer (its substitutable
    region). *)
Theorem single_layer_view_agrees (layer : Layer) :
  TestUtils.CreateSubgraphViewFrom (TestUtils.CreateInputsFrom [layer])
                                   (TestUtils.CreateOutputsFrom [layer]) [layer]
  = GpuFsa.CreateSubgraphViewFrom (GpuFsa.CreateInputsFrom layer)
                                  (GpuFsa.CreateOutputsFrom layer) [layer].
Proof.
  rewrite CreateInputsFrom_join, CreateOutputsFrom_join. simpl.
  by rewrite !app_nil_r.
Qed.

(** X9.  Every slot reference the test helpers return points into one of
    the given layers at an index that layer has: looking the slot up does
    not go out of range. *)
Theorem slot_references_resolve (layers : list Layer) (g : N) (i : nat) :
  ((g, i) ∈ TestUtils.CreateInputsFrom layers ->
     exists layer slot,
       layer ∈ layers /\ GetGuid layer = g /\ GetInputSlot layer i = Ok slot) /\
  ((g, i) ∈ TestUtils.CreateOutputsFrom layers ->
     exists layer slot,
       layer ∈ layers /\ GetGuid layer = g /\ GetOutputSlot layer i = Ok slot).
Proof.
  rewrite CreateInputsFrom_join, CreateOutputsFrom_join. split.
  - intros H. apply list_elem_of_join in H as (refs & Hin & Hrefs).
    apply list_elem_of_fmap in Hrefs as (layer & -> & Hlayer).
    unfold GpuFsa.CreateInputsFrom in Hin.
    apply list_elem_of_fmap in Hin as (j & Heq & Hj). injection Heq as -> ->.
    apply elem_of_seq in Hj.
    destruct (lookup_lt_is_Some_2 (m_InputSlots layer) j) as [slot Hslot];
      [unfold GetNumInputSlots in Hj; lia|].
    exists layer, slot. unfold GetInputSlot. by rewrite Hslot.
  - intros H. apply list_elem_of_join in H as (refs & Hin & Hrefs).
    apply list_elem_of_fmap in Hrefs as (layer & -> & Hlayer).
    unfold GpuFsa.CreateOutputsFrom in Hin.
    apply list_elem_of_fmap in Hin as (j & Heq & Hj). injection Heq as -> ->.
    apply elem_of_seq in Hj.
    destruct (lookup_lt_is_Some_2 (m_OutputSlots layer) j) as [slot Hslot];
      [unfold GetNumOutputSlots in Hj; lia|].
    exists layer, slot. unfold GetOutputSlot. by rewrite Hslot.
Qed.

Import TestUtils.

(** X10.  [MakeTensorShape] returns for [NCHW] and [NHWC] only and throws
    [InvalidArgumentException] for the other layouts.  A returned shape is
    a rearrangement of the four extents with the batch extent first and
    the channel extent at index 1 for [NCHW], at index 3 for [NHWC]. *)
Theorem MakeTensorShape_layouts (batches channels height width : N)
    (layout : DataLayout) :
  match MakeTensorShape batches channels height width layout with
  | Returns shape =>
      (layout = NCHW \/ layout = NHWC) /\
      shape ≡ₚ [batches; channels; height; width] /\
      shape !! 0%nat = Some batches /\
      shape !! (match layout with NCHW => 1 | _ => 3 end)%nat = Some channels
  | ThrowsInvalidArgumentException => layout = NDHWC \/ layout = NCDHW
  end.
Proof.
  destruct layout; simpl; [| |by left|by right].
  - by repeat split; [left|..].
  - repeat split; [by right| |done..].
    change [batches; height; width; channels]
      with ([batches] ++ [height; width] ++ [channels]).
    change [batches; channels; height; width]
      with ([batches] ++ [channels] ++ [height; width]).
    apply Permutation_app_head, Permutation_app_comm.
Qed.

End TestUtilsFacts.

Module ClImportCoverage.

Import ClImport.

Section Device.

Variable clImportMemoryARM : N -> N -> Z * N.
Variable import_memory : CLTensor -> N -> bool * CLTensor.

(** X11.  [Import] either returns [true] or throws
    [MemoryImportException]: it never returns [false] and throws nothing
    else.  It never changes the import flags, and it leaves the handle
    untouched unless the source is [Malloc], its bit is set and
    [clImportMemoryARM] reported success. *)
Theorem Import_outcomes h memory source :
  (fst (Import clImportMemoryARM import_memory h memory source) = Ok true \/
   fst (Import clImportMemoryARM import_memory h memory source)
     = Throw MemoryImportException) /\
  m_ImportFlags (snd (Import clImportMemoryARM import_memory h memory source))
    = m_ImportFlags h /\
  (snd (Import clImportMemoryARM import_memory h memory source) = h \/
   (source = Malloc /\
    N.land (m_ImportFlags h) (MemorySource_to_flags Malloc) ≠ 0 /\
    fst (clImportMemoryARM memory (total_size (m_Tensor h))) = CL_SUCCESS)).
Proof.
  unfold Import.
  destruct (N.eqb_spec (N.land (m_ImportFlags h) (MemorySource_to_flags source)) 0)
    as [Hz|Hnz]; simpl; [by repeat split; [right|left] |].
  destruct (decide (source = Malloc)) as [->|Hsrc]; [|by repeat split; [right|left]].
  destruct (clImportMemoryARM memory (total_size (m_Tensor h))) as [error buffer].
  destruct (Z.eqb_spec error CL_SUCCESS) as [->|Herr]; simpl;
    [|by repeat split; [right|left]].
  destruct (import_memory (m_Tensor h) buffer) as [[|] tensor]; simpl.
  - split; [by left|]. split; [done|]. by right.
  - split; [by right|]. split; [done|]. by right.
Qed.

(** X12.  [Import] returns [true] exactly when the source's bit is set in
    the import flags, the source is [Malloc], [clImportMemoryARM] reports
    [CL_SUCCESS] for the pointer and the tensor's total size, and the
    allocator accepts the buffer; the handle's tensor is then the one the
    allocator left. *)
Theorem Import_succeeds_iff h memory source :
  let imported := clImportMemoryARM memory (total_size (m_Tensor h)) in
  let bound := import_memory (m_Tensor h) (snd imported) in
  (fst (Import clImportMemoryARM import_memory h memory source) = Ok true <->
     N.land (m_ImportFlags h) (MemorySource_to_flags source) ≠ 0 /\
     source = Malloc /\
     fst imported = CL_SUCCESS /\
     fst bound = true) /\
  (fst (Import clImportMemoryARM import_memory h memory source) = Ok true ->
     m_Tensor (snd (Import clImportMemoryARM import_memory h memory source))
       = snd bound).
Proof.
  cbv zeta. unfold Import.
  destruct (N.eqb_spec (N.land (m_ImportFlags h) (MemorySource_to_flags source)) 0)
    as [Hz|Hnz]; simpl.
  { split; [|done]. split; [done|]. by intros (H & _). }
  destruct (decide (source = Malloc)) as [->|Hsrc]; simpl.
  2:{ split; [|done]. split; [done|]. by intros (_ & H & _). }
  destruct (clImportMemoryARM memory (total_size (m_Tensor h))) as [error buffer].
  destruct (Z.eqb_spec error CL_SUCCESS) as [->|Herr]; simpl.
  2:{ split; [|done]. split; [done|]. by intros (_ & _ & H & _). }
  destruct (import_memory (m_Tensor h) buffer) as [[|] tensor]; simpl.
  - split; [|done]. split; [done|]. done.
  - split; [|done]. split; [done|]. by intros (_ & _ & _ & H).
Qed.

End Device.

(** X13.  On every element type the two copy paths of the sub-tensor
    handle cast the host pointer as [ClImportTensorHandle::CopyOutTo]
    does (or throw where it throws); [ClImportTensorHandle::CopyInFrom]
    agrees with them on every element type except [S16]. *)
Theorem copy_casts_agree (dt : DataType) :
  Sub_CopyOutTo_cast dt = CopyOutTo_cast dt /\
  Sub_CopyInFrom_cast dt = CopyOutTo_cast dt /\
  (CopyInFrom_cast dt = CopyOutTo_cast dt <-> dt ≠ S16).
Proof.
  destruct dt; repeat split; try done; intros H; try done.
Qed.

End ClImportCoverage.

Module ProfilingCoverage.

Import Profiling ProfilingRuns.

(** X14.  The handler returns (rather than throws) exactly when it holds
    a report structure, the state is [Active], the packet has family 0
    and id 6, and either the flag is already true (no collaborator is
    called) or all four collaborator calls return. *)
Theorem handle_returns_iff call h packet :
  fst (handle call h packet) = Ok tt <->
  m_ReportStructure_has_value h = true /\
  GetCurrentState h = Active /\
  GetPacketFamily packet = 0 /\
  GetPacketId packet = 6 /\
  (m_TimelineReporting h = true \/
   Forall (fun a => call a = Ok tt) activation_actions).
Proof.
  destruct (m_ReportStructure_has_value h) eqn:Hrs;
    [|unfold handle; rewrite Hrs; simpl; by split; [|intros (H & _)]].
  destruct (decide (GetCurrentState h = Active)) as [Hst|Hst].
  2:{ unfold handle. rewrite Hrs. simpl.
      destruct (GetCurrentState h); try done; by split; [|intros (_ & H & _)]. }
  destruct (N.eqb_spec (GetPacketFamily packet) 0) as [Hf|Hf].
  2:{ unfold handle. rewrite Hrs, Hst. simpl.
      apply N.eqb_neq in Hf as Hf'. rewrite Hf'. simpl.
      by split; [|intros (_ & _ & H & _)]. }
  destruct (N.eqb_spec (GetPacketId packet) 6) as [Hi|Hi].
  2:{ unfold handle. rewrite Hrs, Hst. simpl.
      apply N.eqb_neq in Hi as Hi'. rewrite Hi', andb_false_r. simpl.
      by split; [|intros (_ & _ & _ & H & _)]. }
  destruct (m_TimelineReporting h) eqn:Hflag.
  - unfold handle. rewrite Hrs, Hst, Hf, Hi, Hflag. simpl.
    split; [intros _; repeat split; by left | done].
  - destruct (ProfilingFacts.handle_attempt call h packet Hrs Hst Hf Hi Hflag)
      as (_ & _ & _ & _ & Hok).
    rewrite Hok. split.
    + intros Hall. repeat split; try done. by right.
    + by intros (_ & _ & _ & _ & [?|?]).
Qed.

(** X15.  In the [Active] state a packet whose family is not 0 or whose
    id is not 6 is refused with the base [armnn::Exception]; the flag is
    not set and no collaborator is called. *)
Theorem malformed_packet_rejected call h packet :
  m_ReportStructure_has_value h = true ->
  GetCurrentState h = Active ->
  GetPacketFamily packet ≠ 0 \/ GetPacketId packet ≠ 6 ->
  handle call h packet = (Throw ArmnnException, h).
Proof.
  unfold handle. intros -> -> Hbad. simpl.
  destruct (N.eqb_spec (GetPacketFamily packet) 0) as [Hf|Hf];
    destruct (N.eqb_spec (GetPacketId packet) 6) as [Hi|Hi]; simpl; try done.
  by destruct Hbad.
Qed.

(** An invocation leaves the handler as it was, or is an activation
    attempt. *)
Lemma handle_unchanged_or_attempt call h packet :
  snd (handle call h packet) = h \/
  (m_ReportStructure_has_value h = true /\
   GetCurrentState h = Active /\
   GetPacketFamily packet = 0 /\
   GetPacketId packet = 6 /\
   m_TimelineReporting h = false /\
   performed (snd (handle call h packet))
     = performed h ++ completed call activation_actions /\
   (m_TimelineReporting (snd (handle call h packet)) = true <->
      call SendTimelineMessageDirectoryPackage = Ok tt /\
      call SendWellKnownLabelsAndEventClasses = Ok tt)).
Proof.
  destruct (m_ReportStructure_has_value h) eqn:Hrs;
    [|left; unfold handle; by rewrite Hrs].
  destruct (decide (GetCurrentState h = Active)) as [Hst|Hst];
    [|left; unfold handle; rewrite Hrs; simpl;
      by destruct (GetCurrentState h)].
  destruct (N.eqb_spec (GetPacketFamily packet) 0) as [Hf|Hf];
    [|left; unfold handle; rewrite Hrs, Hst; simpl;
      apply N.eqb_neq in Hf as ->; done].
  destruct (N.eqb_spec (GetPacketId packet) 6) as [Hi|Hi];
    [|left; unfold handle; rewrite Hrs, Hst; simpl;
      apply N.eqb_neq in Hi as ->; by rewrite andb_false_r].
  destruct (m_TimelineReporting h) eqn:Hflag;
    [left; by apply ProfilingFacts.handle_flag_set|].
  destruct (ProfilingFacts.handle_attempt call h packet Hrs Hst Hf Hi Hflag)
    as (_ & _ & Hperf & Hset & _).
  right. do 5 (split; [done|]). split; [exact Hperf | exact Hset].
Qed.

(** X16.  An invocation never changes the state machine's state nor the
    report structure, and never clears the flag.  It changes the handler
    at all only in an activation attempt (report structure present, state
    [Active], packet of family 0 and id 6, flag false): then the
    collaborator calls that returned before the first throwing one are
    added to the actions performed, and the flag is set exactly when the
    two sends returned. *)
Theorem handle_frame call h packet :
  GetCurrentState (snd (handle call h packet)) = GetCurrentState h /\
  m_ReportStructure_has_value (snd (handle call h packet))
    = m_ReportStructure_has_value h /\
  (m_TimelineReporting h = true ->
     m_TimelineReporting (snd (handle call h packet)) = true) /\
  (snd (handle call h packet) = h \/
   (m_ReportStructure_has_value h = true /\
    GetCurrentState h = Active /\
    GetPacketFamily packet = 0 /\
    GetPacketId packet = 6 /\
    m_TimelineReporting h = false /\
    performed (snd (handle call h packet))
      = performed h ++ completed call activation_actions /\
    (m_TimelineReporting (snd (handle call h packet)) = true <->
       call SendTimelineMessageDirectoryPackage = Ok tt /\
       call SendWellKnownLabelsAndEventClasses = Ok tt))).
Proof.
  destruct (handle_unchanged_or_attempt call h packet) as [Hsame|Hattempt].
  - split; [by rewrite Hsame|]. split; [by rewrite Hsame|].
    split; [by rewrite Hsame|]. by left.
  - pose proof Hattempt as (Hrs & Hst & Hf & Hi & Hflag & _).
    destruct (ProfilingFacts.handle_attempt call h packet Hrs Hst Hf Hi Hflag)
      as (H1 & H2 & _).
    split; [done|]. split; [by rewrite H2, Hrs|].
    split; [by rewrite Hflag|]. by right.
Qed.

Lemma completed_prefix call actions : completed call actions `prefix_of` actions.
Proof.
  induction actions as [|a actions IH]; simpl; [done|].
  destruct (call a); [by apply prefix_cons | apply prefix_nil].
Qed.

Lemma invoke_all_flag_set h calls :
  m_TimelineReporting h = true ->
  performed (invoke_all h calls) = performed h /\
  m_TimelineReporting (invoke_all h calls) = true.
Proof.
  revert h; induction calls as [|[[call state] packet] calls IH]; intros h Hflag;
    simpl; [done|].
  rewrite ProfilingFacts.handle_flag_set by done.
  by apply (IH (TransitionToState state h)).
Qed.

Lemma completed_before_flag call :
  ~ (call SendTimelineMessageDirectoryPackage = Ok tt /\
     call SendWellKnownLabelsAndEventClasses = Ok tt) ->
  completed call activation_actions = [] \/
  completed call activation_actions = [SendTimelineMessageDirectoryPackage].
Proof.
  intros Hnot. unfold activation_actions; simpl.
  destruct (call SendTimelineMessageDirectoryPackage) as [[]|e1]; [|by left].
  destruct (call SendWellKnownLabelsAndEventClasses) as [[]|e2]; [|by right].
  by destruct Hnot.
Qed.

(** X17.  Over any sequence of invocations, with the state machine moved
    and the collaborators behaving arbitrarily from one invocation to the
    next, the actions performed are those performed before, then some
    number of directory-package sends (attempts that failed before the
    flag was set), then at most one activation sequence, possibly cut
    short by a throwing collaborator; nothing is performed when the flag
    is true from the start. *)
Theorem activation_sequence_in_a_run h calls :
  exists k t,
    performed (invoke_all h calls)
      = performed h ++ replicate k SendTimelineMessageDirectoryPackage ++ t /\
    t `prefix_of` activation_actions /\
    (m_TimelineReporting h = true -> k = 0%nat /\ t = []).
Proof.
  revert h; induction calls as [|[[call state] packet] calls IH]; intros h; simpl.
  { exists 0%nat, []. simpl. rewrite app_nil_r.
    split; [done|]. split; [apply prefix_nil | done]. }
  destruct (handle_unchanged_or_attempt call (TransitionToState state h) packet)
    as [Hsame|Hattempt].
  - rewrite Hsame. apply (IH (TransitionToState state h)).
  - destruct Hattempt as (_ & _ & _ & _ & Hoff & Hperf & Hset).
    change (m_TimelineReporting h = false) in Hoff.
    change (performed (TransitionToState state h)) with (performed h) in Hperf.
    destruct (m_TimelineReporting
                (snd (handle call (TransitionToState state h) packet))) eqn:Hflag.
    + destruct (invoke_all_flag_set _ calls Hflag) as [-> _]. rewrite Hperf.
      exists 0%nat, (completed call activation_actions).
      split; [reflexivity|]. split; [apply completed_prefix|]. by rewrite Hoff.
    + destruct (IH (snd (handle call (TransitionToState state h) packet)))
        as (k & t & -> & Hpre & _).
      rewrite Hperf.
      destruct (completed_before_flag call) as [-> | ->].
      * intros Hboth. apply Hset in Hboth. discriminate Hboth.
      * exists k, t. rewrite app_nil_r. split; [done|]. split; [done|].
        by rewrite Hoff.
      * exists (S k), t. simpl. rewrite <- app_assoc. simpl.
        split; [done|]. split; [done|]. by rewrite Hoff.
Qed.

Import Examples Scenarios.

Lemma malformed_packet_rejected_other :
  (GetPacketFamily other_packet ≠ 0 \/ GetPacketId other_packet ≠ 6) /\
  handle all_return (handler_in Active true) other_packet
  = (Throw ArmnnException, handler_in Active true).
Proof.
  assert (H : GetPacketFamily other_packet ≠ 0 \/ GetPacketId other_packet ≠ 6)
    by (right; discriminate).
  split; [exact H|].
  exact (malformed_packet_rejected all_return (handler_in Active true) other_packet
           eq_refl eq_refl H).
Defined.

End ProfilingCoverage.
